(** * SPHinXsys restart / reload I/O ([src/shared/io_system/io_base.cpp])

    A shallow embedding of [BaseIO], [BodyStatesRecording], [RestartIO] and
    [ReloadParticleIO], and the properties of the checkpoint subsystem
    proved on it.

    Modelling conventions.
    - [std::string] is [string]; a path names a file by string equality.
    - [size_t] is [N] and [int] is [Z]; what [operator<<] prints for them
      is stdpp's [pretty].
    - [Real] is modelled by the exact rationals [Q]: the binary rounding of
      [double] arithmetic and the non-finite values are outside the model.
    - The file system is a finite map from paths to file contents.
    - [SPHBody *] is an address into a store of body objects, so that one
      body reachable twice from a body vector is one object.
    - A member function is a computation over the [World]: it returns,
      calls [exit], or has undefined behaviour.
    - The world records the calls of the body capabilities in order; the
      record is there for the statements only, no code reads it. *)

From Stdlib Require Import Ascii QArith Qabs Qround.
From stdpp Require Import gmap strings pretty list.

Set Warnings "-clear-no-such-hyp".
Local Open Scope Z_scope.

(** ** Strings *)

Module Str.

Fixpoint zeros (n : nat) : string :=
  match n with
  | O => ""
  | S n => String "0"%char (zeros n)
  end.

End Str.

(** ** Decimal digits *)

Module Digits.

(** The decimal digit that a character stands for: [c - '0'] when [c] lies
    between ['0'] and ['9']. *)
Definition digit_of (c : ascii) : option N :=
  let code := N_of_ascii c in
  if ((48 <=? code) && (code <=? 57))%N then Some (code - 48)%N else None.

(** [read_digits s acc cnt] consumes the longest prefix of decimal digits
    of [s]: it returns the value read on top of [acc], the number of
    digits read on top of [cnt], and the rest of the input. *)
Fixpoint read_digits (s : string) (acc : N) (cnt : nat) : N * nat * string :=
  match s with
  | "" => (acc, cnt, "")
  | String c s' =>
      match digit_of c with
      | Some d => read_digits s' (10 * acc + d)%N (S cnt)
      | None => (acc, cnt, s)
      end
  end.

(** A string of decimal digits only. *)
Fixpoint all_digits (s : string) : bool :=
  match s with
  | "" => true
  | String c s' => bool_decide (is_Some (digit_of c)) && all_digits s'
  end.

(** The number a string of digits denotes, on top of [acc]. *)
Fixpoint digits_value (s : string) (acc : N) : N :=
  match s with
  | "" => acc
  | String c s' => digits_value s' (10 * acc + default 0 (digit_of c))%N
  end.

(** The next character does not continue a number. *)
Definition stops (s : string) : Prop :=
  match s with
  | "" => True
  | String c _ => digit_of c = None
  end.

(** Exactly [k] digits of [x], most significant first, in front of [s]. *)
Fixpoint fixed_digits (k : nat) (x : N) (s : string) : string :=
  match k with
  | O => s
  | S k => fixed_digits k (x `div` 10)%N
             (String (pretty_N_char (x `mod` 10)) s)
  end.

End Digits.

(** ** Formatted input and output of [Real] values *)

Module RealIO.
Import Digits.

Definition pow10 (k : nat) : positive := Z.to_pos (10 ^ Z.of_nat k).

(** Rounding of the fraction [num / den] to the nearest integer, a tie
    going to the even neighbour. *)
Definition round_half_even (num : N) (den : positive) : N :=
  let q := (num `div` Npos den)%N in
  let r := (num `mod` Npos den)%N in
  if (2 * r <? Npos den)%N then q
  else if (Npos den <? 2 * r)%N then (q + 1)%N
  else if N.even q then q else (q + 1)%N.

(** The magnitude of [t] in units of [10 ^ -p]. *)
Definition scaled (p : nat) (t : Q) : N :=
  round_half_even (Z.abs_N (Qnum t) * 10 ^ N.of_nat p) (Qden t).

(** [out << std::fixed << std::setprecision(p) << t], for [0 < p]: sign,
    integer part, decimal point and exactly [p] fractional digits. *)
Definition print_fixed (p : nat) (t : Q) : string :=
  let m := scaled p t in
  (if Qnum t <? 0 then "-" else "")
  +:+ pretty (m `div` 10 ^ N.of_nat p)%N
  +:+ "." +:+ fixed_digits p (m `mod` 10 ^ N.of_nat p)%N "".

(** The value that [print_fixed p t] denotes. *)
Definition round_fixed (p : nat) (t : Q) : Q :=
  Qmake (if Qnum t <? 0 then - Z.of_N (scaled p t) else Z.of_N (scaled p t))
        (pow10 p).

Fixpoint skip_ws (s : string) : string :=
  match s with
  | "" => ""
  | String c s' => if Ascii.is_space c then skip_ws s' else s
  end.

Definition read_sign (s : string) : bool * string :=
  match s with
  | String "-" s' => (true, s')
  | String "+" s' => (false, s')
  | _ => (false, s)
  end.

(** [in >> x] for a [Real] [x]: leading white space, an optional sign,
    digits, and an optional point followed by digits; [None] when the
    stream fails. Exponents, [inf] and [nan] are not read: [print_fixed]
    writes none. *)
Definition parse_real (s : string) : option Q :=
  let '(neg, s1) := read_sign (skip_ws s) in
  let '(ip, ni, s2) := read_digits s1 0 0 in
  let '(v, nf, _) :=
    match s2 with
    | String "." s3 => read_digits s3 ip 0
    | _ => (ip, 0%nat, s2)
    end in
  if (ni + nf =? 0)%nat then None
  else Some (Qmake (if neg then - Z.of_N v else Z.of_N v) (pow10 nf)).

End RealIO.

(** ** The world the I/O classes act on *)

(** The folders of [IOEnvironment] that [io_base.cpp] reads. *)
Module IOEnvironment.
Record t := {
  restart_folder_ : string;
  reload_folder_ : string
}.
End IOEnvironment.

(** [SPHSystem], as far as [BaseIO] looks into it. *)
Module SPHSystem.
Record t := {
  io_environment_ : IOEnvironment.t
}.
End SPHSystem.

(** Modelled from the spec: the capabilities of [SPHBody] that the I/O
    classes call, [writeParticlesToXmlForRestart],
    [readParticlesFromXmlForRestart], [writeToXmlForReloadParticle] and
    [readFromXmlForReloadParticle], are declared outside [io_base.cpp].
    Each is given a path and is otherwise the body's business: a writer
    makes the content of the file from the particle state, a reader makes
    a particle state from the content of the file and the state the body
    is in. *)
Class ParticleXml (P : Type) := {
  writeParticlesToXmlForRestart : P → string;
  readParticlesFromXmlForRestart : string → P → P;
  writeToXmlForReloadParticle : P → string;
  readFromXmlForReloadParticle : string → P → P
}.


Record SPHBody (P : Type) := {
  sph_system : SPHSystem.t;
  body_name_ : string;
  base_particles_ : P
}.
Arguments sph_system {P} _.
Arguments body_name_ {P} _.
Arguments base_particles_ {P} _.

(** A call of a body capability, as seen from outside the I/O classes. *)
Inductive Call :=
| WriteRestart (body : nat) (path : string)
| ReadRestart (body : nat) (path : string)
| WriteReload (body : nat) (path : string)
| ReadReload (body : nat) (path : string).

Record World (P : Type) := {
  physical_time_ : Q;              (* GlobalStaticVariables::physical_time_ *)
  files : gmap string string;      (* the file system *)
  heap : gmap nat (SPHBody P);     (* the bodies, by address *)
  cout : string;                   (* what std::cout has received *)
  calls : list Call                (* the capability calls made, in order *)
}.
Arguments physical_time_ {P} _.
Arguments files {P} _.
Arguments heap {P} _.
Arguments cout {P} _.
Arguments calls {P} _.

Inductive Outcome (P A : Type) :=
| Returns (a : A) (w : World P)
| Exits (status : Z) (w : World P)
| Undefined.
Arguments Returns {P A} _ _.
Arguments Exits {P A} _ _.
Arguments Undefined {P A}.

Definition Proc (P A : Type) : Type := World P → Outcome P A.

Global Instance Proc_ret {P} : MRet (Proc P) := λ A a w, Returns a w.
Global Instance Proc_bind {P} : MBind (Proc P) := λ A B f c w,
  match c w with
  | Returns a w' => f a w'
  | Exits status w' => Exits status w'
  | Undefined => Undefined
  end.

Section World.
Context {P : Type}.

Definition set_files (f : gmap string string → gmap string string)
    (w : World P) : World P :=
  {| physical_time_ := physical_time_ w; files := f (files w);
     heap := heap w; cout := cout w; calls := calls w |}.

Definition set_heap (f : gmap nat (SPHBody P) → gmap nat (SPHBody P))
    (w : World P) : World P :=
  {| physical_time_ := physical_time_ w; files := files w;
     heap := f (heap w); cout := cout w; calls := calls w |}.

Definition set_cout (f : string → string) (w : World P) : World P :=
  {| physical_time_ := physical_time_ w; files := files w;
     heap := heap w; cout := f (cout w); calls := calls w |}.

Definition set_calls (f : list Call → list Call) (w : World P) : World P :=
  {| physical_time_ := physical_time_ w; files := files w;
     heap := heap w; cout := cout w; calls := f (calls w) |}.

Definition set_particles (p : P) (b : SPHBody P) : SPHBody P :=
  {| sph_system := sph_system b; body_name_ := body_name_ b;
     base_particles_ := p |}.

Definition gets {A} (f : World P → A) : Proc P A := λ w, Returns (f w) w.
Definition modify (f : World P → World P) : Proc P unit :=
  λ w, Returns tt (f w).
Definition undefined {A} : Proc P A := λ _, Undefined.

(** [exit(status)] *)
Definition exit {A} (status : Z) : Proc P A := λ w, Exits status w.

(** [std::cout << text] *)
Definition print (text : string) : Proc P unit :=
  modify (set_cout (λ out, out +:+ text)).

(** [fs::exists(path)] *)
Definition fs_exists (path : string) : Proc P bool :=
  gets (λ w, bool_decide (is_Some (files w !! path))).

(** [fs::remove(path)] *)
Definition fs_remove (path : string) : Proc P unit :=
  modify (set_files (delete path)).

(** [std::ofstream out(path, std::ios::app); out << text; out.close();]
    A missing file is created; text goes after what the file holds. *)
Definition ofstream_app (path text : string) : Proc P unit :=
  modify (set_files (λ fs, <[path := default "" (fs !! path) +:+ text]> fs)).

(** [Real x; std::ifstream in(path); in >> x; in.close();] and then the
    value of [x]. When extraction fails [x] is zero; when the file cannot
    be opened [x] is never written. *)
Definition ifstream_real (path : string) : Proc P Q :=
  content ← gets (λ w, files w !! path);
  match content with
  | Some text => mret (default 0%Q (RealIO.parse_real text))
  | None => undefined
  end.

(** [*body] *)
Definition deref (body : nat) : Proc P (SPHBody P) :=
  object ← gets (λ w, heap w !! body);
  match object with
  | Some b => mret b
  | None => undefined
  end.

Definition getName (body : nat) : Proc P string :=
  b ← deref body; mret (body_name_ b).

Definition getSPHSystem (body : nat) : Proc P SPHSystem.t :=
  b ← deref body; mret (sph_system b).

(** [v[i]] of a [std::vector] *)
Definition at_index {A} (v : list A) (i : nat) : Proc P A :=
  match v !! i with
  | Some x => mret x
  | None => undefined
  end.

(** [for (size_t i = first; i < first + count; ++i) body(i);] *)
Fixpoint for_loop (first count : nat) (body : nat → Proc P unit)
    : Proc P unit :=
  match count with
  | O => mret tt
  | S count => body first;; for_loop (S first) count body
  end.

(** [std::transform(v.begin(), v.end(), std::back_inserter(out), f)] on an
    empty [out] *)
Fixpoint transform {A B} (f : A → Proc P B) (v : list A)
    : Proc P (list B) :=
  match v with
  | [] => mret []
  | x :: v => y ← f x; out ← transform f v; mret (y :: out)
  end.

Context {particle_xml : ParticleXml P}.

(** Modelled from the spec: [body->writeParticlesToXmlForRestart(path)]
    leaves at [path] the file that the body's capability makes. *)
Definition body_writeParticlesToXmlForRestart (body : nat) (path : string)
    : Proc P unit :=
  b ← deref body;
  modify (set_files
    <[path := writeParticlesToXmlForRestart (base_particles_ b)]>);;
  modify (set_calls (λ log, log ++ [WriteRestart body path])).

(** Modelled from the spec: [body->readParticlesFromXmlForRestart(path)]
    gives the body the particle state that its capability makes of the file
    at [path]. The spec is silent on a file that is missing; the callers
    check for it first. *)
Definition body_readParticlesFromXmlForRestart (body : nat) (path : string)
    : Proc P unit :=
  b ← deref body;
  content ← gets (λ w, files w !! path);
  match content with
  | Some xml =>
      modify (set_heap <[body :=
        set_particles
          (readParticlesFromXmlForRestart xml (base_particles_ b)) b]>);;
      modify (set_calls (λ log, log ++ [ReadRestart body path]))
  | None => undefined
  end.

(** Modelled from the spec: [body->writeToXmlForReloadParticle(path)]. *)
Definition body_writeToXmlForReloadParticle (body : nat) (path : string)
    : Proc P unit :=
  b ← deref body;
  modify (set_files
    <[path := writeToXmlForReloadParticle (base_particles_ b)]>);;
  modify (set_calls (λ log, log ++ [WriteReload body path])).

(** Modelled from the spec: [body->readFromXmlForReloadParticle(path)]. *)
Definition body_readFromXmlForReloadParticle (body : nat) (path : string)
    : Proc P unit :=
  b ← deref body;
  content ← gets (λ w, files w !! path);
  match content with
  | Some xml =>
      modify (set_heap <[body :=
        set_particles
          (readFromXmlForReloadParticle xml (base_particles_ b)) b]>);;
      modify (set_calls (λ log, log ++ [ReadReload body path]))
  | None => undefined
  end.

End World.

(** ** Path and naming scheme *)

(** The character that ["\n"] and [std::endl] put on a stream. *)
Definition nl : string := String "010"%char "".

(** Modelled from the spec: the field width of [padValueWithZeros] is
    configured outside [io_base.cpp]. *)
Class FieldWidth := max_string_width : nat.

(** The expansion of [__FILE__] in [io_base.cpp]. *)
Class SourceFile := FILE : string.

(** Modelled from the spec: the template [padValueWithZeros] is declared
    outside [io_base.cpp]. The decimal string of the value, left-padded with
    ['0'] to the configured field width; a representation longer than the
    width is used in full. The decimal string is what [operator<<] prints
    for the value's type. *)
Definition padValueWithZeros {width : FieldWidth} `{Pretty T} (value : T)
    : string :=
  Str.zeros (max_string_width - String.length (pretty value))
  +:+ pretty value.

(** The block that each read runs when its input file is missing: the
    diagnostic and the end of the process. [line] is the expansion of
    [__LINE__] where the block stands. *)
Definition missing_file {file : SourceFile} {P : Type} (path : string)
    (line : N) : Proc P unit :=
  print (nl +:+ " Error: the input file:" +:+ path +:+ " is not exists"
         +:+ nl);;
  print (FILE +:+ ":" +:+ pretty line +:+ nl);;
  exit 1.

(** ** [BaseIO] *)

Module BaseIO.

Record t := {
  sph_system_ : SPHSystem.t;
  io_environment_ : IOEnvironment.t
}.

(** [BaseIO::BaseIO(SPHSystem &sph_system)]; the system has its I/O
    environment, which the constructor dereferences. *)
Definition new (sph_system : SPHSystem.t) : t :=
  {| sph_system_ := sph_system;
     io_environment_ := SPHSystem.io_environment_ sph_system |}.

Section Methods.
Context {P : Type} {width : FieldWidth}.

(** [int(x)] for a [Real] [x]: the fraction is discarded; a value that
    [int] cannot hold has no defined conversion. *)
Definition int_of_real (x : Q) : Proc P Z :=
  let z := Qnum x `quot` Zpos (Qden x) in
  if bool_decide (- 2 ^ 31 ≤ z < 2 ^ 31) then mret z else undefined.

(** [BaseIO::convertPhysicalTimeToString(Real convertPhysicalTimeToStream)] *)
Definition convertPhysicalTimeToString (this : t)
    (convertPhysicalTimeToStream : Q) : Proc P string :=
  time ← gets physical_time_;
  i_time ← int_of_real (time * (1000000 # 1))%Q;
  mret (padValueWithZeros i_time).

End Methods.
End BaseIO.

(** ** [BodyStatesRecording] *)

Module BodyStatesRecording.

Record t := {
  base : BaseIO.t;
  bodies_ : list nat;
  state_recording_ : bool
}.

Section Methods.
Context {P : Type} {width : FieldWidth}.

(** Modelled from the spec: [writeWithFileName] is pure virtual; the
    recorders of each file format implement it outside [io_base.cpp]. It
    asks each body to write its recordable state to a file named after the
    token. *)
Variable writeWithFileName : t → string → Proc P unit.

(** [BodyStatesRecording::writeToFile()] *)
Definition writeToFile (this : t) : Proc P unit :=
  time ← gets physical_time_;
  token ← BaseIO.convertPhysicalTimeToString (base this) time;
  writeWithFileName this token.


End Methods.
End BodyStatesRecording.

(** ** [RestartIO] *)

Module RestartIO.

Record t := {
  base : BaseIO.t;
  bodies_ : list nat;
  overall_file_path_ : string;
  file_names_ : list string
}.

Section Methods.
Context {P : Type} {particle_xml : ParticleXml P} {width : FieldWidth}
  {file : SourceFile}.

(** [RestartIO::RestartIO(SPHBodyVector bodies)] *)
Definition new (bodies : list nat) : Proc P t :=
  body0 ← at_index bodies 0;
  sph_system ← getSPHSystem body0;
  let base := BaseIO.new sph_system in
  let restart_folder :=
    IOEnvironment.restart_folder_ (BaseIO.io_environment_ base) in
  file_names ← transform
    (λ body, name ← getName body;
             mret (restart_folder +:+ "/" +:+ name +:+ "_rst_")) bodies;
  mret {| base := base; bodies_ := bodies;
          overall_file_path_ := restart_folder +:+ "/Restart_time_";
          file_names_ := file_names |}.

(** [RestartIO::writeToFile(size_t iteration_step)] *)
Definition writeToFile (this : t) (iteration_step : N) : Proc P unit :=
  let overall_filefullpath :=
    overall_file_path_ this
    +:+ padValueWithZeros iteration_step +:+ ".dat" in
  found ← fs_exists overall_filefullpath;
  (if found : bool then fs_remove overall_filefullpath else mret tt);;
  time ← gets physical_time_;
  ofstream_app overall_filefullpath
    (RealIO.print_fixed 9 time +:+ "   " +:+ nl);;
  for_loop 0 (length (bodies_ this)) (λ i,
    name ← at_index (file_names_ this) i;
    let filefullpath :=
      name +:+ padValueWithZeros iteration_step
      +:+ ".xml" in
    found ← fs_exists filefullpath;
    (if found : bool then fs_remove filefullpath else mret tt);;
    body ← at_index (bodies_ this) i;
    body_writeParticlesToXmlForRestart body filefullpath).

(** [RestartIO::readRestartTime(size_t restart_step)] *)
Definition readRestartTime (this : t) (restart_step : N) : Proc P Q :=
  print (nl +:+ " Reading restart files from the restart step = "
         +:+ pretty restart_step +:+ nl);;
  let overall_filefullpath :=
    overall_file_path_ this
    +:+ padValueWithZeros restart_step +:+ ".dat" in
  found ← fs_exists overall_filefullpath;
  (if negb found then missing_file overall_filefullpath 79 else mret tt);;
  ifstream_real overall_filefullpath.

(** [RestartIO::readFromFile(size_t restart_step)] *)
Definition readFromFile (this : t) (restart_step : N) : Proc P unit :=
  for_loop 0 (length (bodies_ this)) (λ i,
    name ← at_index (file_names_ this) i;
    let filefullpath :=
      name +:+ padValueWithZeros restart_step
      +:+ ".xml" in
    found ← fs_exists filefullpath;
    (if negb found then missing_file filefullpath 99 else mret tt);;
    body ← at_index (bodies_ this) i;
    body_readParticlesFromXmlForRestart body filefullpath).

End Methods.
End RestartIO.

(** ** [ReloadParticleIO] *)

Module ReloadParticleIO.

Record t := {
  base : BaseIO.t;
  bodies_ : list nat;
  file_names_ : list string
}.

Section Methods.
Context {P : Type} {particle_xml : ParticleXml P} {file : SourceFile}.

(** [ReloadParticleIO::ReloadParticleIO(SPHBodyVector bodies)] *)
Definition new (bodies : list nat) : Proc P t :=
  body0 ← at_index bodies 0;
  sph_system ← getSPHSystem body0;
  let base := BaseIO.new sph_system in
  let reload_folder :=
    IOEnvironment.reload_folder_ (BaseIO.io_environment_ base) in
  file_names ← transform
    (λ body, name ← getName body;
             mret (reload_folder +:+ "/" +:+ name +:+ "_rld.xml")) bodies;
  mret {| base := base; bodies_ := bodies; file_names_ := file_names |}.

(** [ReloadParticleIO::ReloadParticleIO(SPHBody &sph_body,
    const std::string &given_body_name)] *)
Definition new_named (sph_body : nat) (given_body_name : string)
    : Proc P t :=
  sph_system ← getSPHSystem sph_body;
  let base := BaseIO.new sph_system in
  let reload_folder :=
    IOEnvironment.reload_folder_ (BaseIO.io_environment_ base) in
  mret {| base := base; bodies_ := [sph_body];
          file_names_ :=
            [] ++ [reload_folder +:+ "/" +:+ given_body_name +:+ "_rld.xml"]
       |}.


(** [ReloadParticleIO::writeToFile(size_t iteration_step)] *)
Definition writeToFile (this : t) (iteration_step : N) : Proc P unit :=
  for_loop 0 (length (bodies_ this)) (λ i,
    filefullpath ← at_index (file_names_ this) i;
    found ← fs_exists filefullpath;
    (if found : bool then fs_remove filefullpath else mret tt);;
    body ← at_index (bodies_ this) i;
    body_writeToXmlForReloadParticle body filefullpath).

(** [ReloadParticleIO::readFromFile(size_t restart_step)] *)
Definition readFromFile (this : t) (restart_step : N) : Proc P unit :=
  print (nl +:+ " Reloading particles from files." +:+ nl);;
  for_loop 0 (length (bodies_ this)) (λ i,
    filefullpath ← at_index (file_names_ this) i;
    found ← fs_exists filefullpath;
    (if negb found
     then missing_file filefullpath 148
     else mret tt);;
    body ← at_index (bodies_ this) i;
    body_readFromXmlForReloadParticle body filefullpath).

End Methods.
End ReloadParticleIO.

(** ** Loops over the elements of a vector *)

Section Loops.
Context {P : Type}.

(** [foreach g xs]: [g] on each element of [xs], in order. *)
Fixpoint foreach {A} (g : A → Proc P unit) (xs : list A) : Proc P unit :=
  match xs with
  | [] => mret tt
  | x :: xs => g x;; foreach g xs
  end.

End Loops.

(** ** The loops of [RestartIO], one body at a time *)

Section RestartLoops.
Context {P : Type} {particle_xml : ParticleXml P} {width : FieldWidth}
  {file : SourceFile}.

Definition restart_path (iteration_step : N) (name : string) : string :=
  name +:+ padValueWithZeros iteration_step +:+ ".xml".

Definition overall_path (this : RestartIO.t) (iteration_step : N) : string :=
  RestartIO.overall_file_path_ this
  +:+ padValueWithZeros iteration_step +:+ ".dat".

(** One round of the loop of [RestartIO::writeToFile], for the body at
    address [x.2] whose file name prefix is [x.1]. *)
Definition write_one (k : N) (x : string * nat) : Proc P unit :=
  found ← fs_exists (restart_path k x.1);
  (if found : bool then fs_remove (restart_path k x.1) else mret tt);;
  body_writeParticlesToXmlForRestart x.2 (restart_path k x.1).

Definition write_step (k : N) (w : World P) (x : string * nat) : World P :=
  match heap w !! x.2 with
  | Some b =>
      set_calls (λ log, log ++ [WriteRestart x.2 (restart_path k x.1)])
        (set_files
           <[restart_path k x.1 :=
               writeParticlesToXmlForRestart (base_particles_ b)]> w)
  | None => w
  end.

(** One round of the loop of [RestartIO::readFromFile]. *)
Definition restore_one (k : N) (x : string * nat) : Proc P unit :=
  found ← fs_exists (restart_path k x.1);
  (if negb found
   then missing_file (restart_path k x.1) 99
   else mret tt);;
  body_readParticlesFromXmlForRestart x.2 (restart_path k x.1).

Definition restore_step (k : N) (w : World P) (x : string * nat) : World P :=
  match heap w !! x.2, files w !! restart_path k x.1 with
  | Some b, Some xml =>
      set_calls (λ log, log ++ [ReadRestart x.2 (restart_path k x.1)])
        (set_heap
           <[x.2 := set_particles
                      (readParticlesFromXmlForRestart xml (base_particles_ b))
                      b]> w)
  | _, _ => w
  end.

(** The world at [exit] after the diagnostic for a missing [path]. *)
Definition diagnosed (path : string) (line : N) (w : World P) : World P :=
  set_cout (λ out,
    (out +:+ nl +:+ " Error: the input file:" +:+ path +:+ " is not exists"
     +:+ nl) +:+ FILE +:+ ":" +:+ pretty line +:+ nl) w.

(** The bodies of a vector are objects of the world. *)
Definition valid_bodies (bodies : list nat) (w : World P) : Prop :=
  ∀ b, b ∈ bodies → is_Some (heap w !! b).

End RestartLoops.

(** ** Construction *)

Section Construction.
Context {P : Type} {particle_xml : ParticleXml P}.

(** The name of the body at an address. *)
Definition name_in (w : World P) (body : nat) : string :=
  from_option body_name_ "" (heap w !! body).

Definition restart_folder (this : RestartIO.t) : string :=
  IOEnvironment.restart_folder_ (BaseIO.io_environment_ (RestartIO.base this)).

(** What [RestartIO::RestartIO] builds over the bodies of [w], the first of
    which is [b0]. *)
Definition restart_io (w : World P) (b0 : SPHBody P) (bodies : list nat)
    : RestartIO.t :=
  let base := BaseIO.new (sph_system b0) in
  let folder := IOEnvironment.restart_folder_ (BaseIO.io_environment_ base) in
  {| RestartIO.base := base;
     RestartIO.bodies_ := bodies;
     RestartIO.overall_file_path_ := folder +:+ "/Restart_time_";
     RestartIO.file_names_ :=
       (λ b, folder +:+ "/" +:+ name_in w b +:+ "_rst_") <$> bodies |}.

(** What [ReloadParticleIO::ReloadParticleIO] builds over the bodies of [w],
    the first of which is [b0]. *)
Definition reload_io (w : World P) (b0 : SPHBody P) (bodies : list nat)
    : ReloadParticleIO.t :=
  let base := BaseIO.new (sph_system b0) in
  let folder := IOEnvironment.reload_folder_ (BaseIO.io_environment_ base) in
  {| ReloadParticleIO.base := base;
     ReloadParticleIO.bodies_ := bodies;
     ReloadParticleIO.file_names_ :=
       (λ b, folder +:+ "/" +:+ name_in w b +:+ "_rld.xml") <$> bodies |}.

End Construction.

(** ** [RestartIO], whole member functions *)

Section RestartMembers.
Context {P : Type} {particle_xml : ParticleXml P} {width : FieldWidth}
  {file : SourceFile}.

(** The line that [RestartIO::writeToFile] writes to the overall file. *)
Definition time_line (time : Q) : string :=
  RealIO.print_fixed 9 time +:+ "   " +:+ nl.

(** The announcement of [RestartIO::readRestartTime]. *)
Definition announced (restart_step : N) (w : World P) : World P :=
  set_cout (λ out, out +:+ nl
    +:+ " Reading restart files from the restart step = "
    +:+ pretty restart_step +:+ nl) w.

(** The pairs that the loops of a [RestartIO] go through. *)
Definition restart_pairs (this : RestartIO.t) : list (string * nat) :=
  zip (RestartIO.file_names_ this) (RestartIO.bodies_ this).

End RestartMembers.

(** ** Files and diagnostics of a read *)

Section ReadPaths.
Context {P : Type} {particle_xml : ParticleXml P} {width : FieldWidth}
  {file : SourceFile}.

(** The restart file of step [k] of the body at [b], for a [RestartIO]
    that was constructed in the world [w]. *)
Definition restart_file (this : RestartIO.t) (w : World P) (k : N) (b : nat)
    : string :=
  restart_path k (restart_folder this +:+ "/" +:+ name_in w b +:+ "_rst_").

(** The text [out] names [path]. *)
Definition names_path (out path : string) : Prop :=
  ∃ before after, out = before +:+ path +:+ after.

End ReadPaths.

(** ** The loops of [ReloadParticleIO], one body at a time *)

Section ReloadLoops.
Context {P : Type} {particle_xml : ParticleXml P} {file : SourceFile}.

(** One round of the loop of [ReloadParticleIO::writeToFile], for the body
    at address [x.2] whose file is [x.1]. *)
Definition reload_write_one (x : string * nat) : Proc P unit :=
  found ← fs_exists x.1;
  (if found : bool then fs_remove x.1 else mret tt);;
  body_writeToXmlForReloadParticle x.2 x.1.

Definition reload_write_step (w : World P) (x : string * nat) : World P :=
  match heap w !! x.2 with
  | Some b =>
      set_calls (λ log, log ++ [WriteReload x.2 x.1])
        (set_files
           <[x.1 := writeToXmlForReloadParticle (base_particles_ b)]> w)
  | None => w
  end.

(** One round of the loop of [ReloadParticleIO::readFromFile]. *)
Definition reload_read_one (x : string * nat) : Proc P unit :=
  found ← fs_exists x.1;
  (if negb found then missing_file x.1 148 else mret tt);;
  body_readFromXmlForReloadParticle x.2 x.1.

Definition reload_read_step (w : World P) (x : string * nat) : World P :=
  match heap w !! x.2, files w !! x.1 with
  | Some b, Some xml =>
      set_calls (λ log, log ++ [ReadReload x.2 x.1])
        (set_heap
           <[x.2 := set_particles
                      (readFromXmlForReloadParticle xml (base_particles_ b))
                      b]> w)
  | _, _ => w
  end.

Definition reload_pairs (this : ReloadParticleIO.t) : list (string * nat) :=
  zip (ReloadParticleIO.file_names_ this) (ReloadParticleIO.bodies_ this).

End ReloadLoops.

(** ** The token of a physical time, as specified *)

(** The conversion as the specification words it: the index is
    [floor(t * 1000000)], and the token is the padded index. *)
Definition token_of_time_spec {width : FieldWidth} (t : Q) : string :=
  padValueWithZeros (Qfloor (t * (1000000 # 1))).

(** ** A concrete run: bodies whose particle state is an XML document *)

Module Scenario.

(** Particles that are written as they are and read as they were written. *)
Definition xml_particles : ParticleXml string := {|
  writeParticlesToXmlForRestart p := p;
  readParticlesFromXmlForRestart xml _ := xml;
  writeToXmlForReloadParticle p := p;
  readFromXmlForReloadParticle xml _ := xml
|}.

Definition width6 : FieldWidth := 6%nat.
Definition source : SourceFile := "io_base.cpp".

Definition environment : IOEnvironment.t := {|
  IOEnvironment.restart_folder_ := "./restart";
  IOEnvironment.reload_folder_ := "./reload"
|}.

Definition system : SPHSystem.t :=
  {| SPHSystem.io_environment_ := environment |}.

Definition body (name : string) (particles : string) : SPHBody string :=
  {| sph_system := system; body_name_ := name; base_particles_ := particles |}.

Definition world (time : Q) (bodies : list (nat * SPHBody string))
    : World string :=
  {| physical_time_ := time; files := ∅; heap := list_to_map bodies;
     cout := ""; calls := [] |}.

(** Two bodies [A] and [B] at the addresses 1 and 2. *)
Definition two_bodies : World string :=
  world (3 # 2) [(1%nat, body "A" "<a/>"); (2%nat, body "B" "<b/>")].

(** Two different bodies that are both called [A]. *)
Definition same_name : World string :=
  world (3 # 2) [(1%nat, body "A" "<a/>"); (2%nat, body "A" "<b/>")].

(** The bodies [A] and [B] with a checkpoint of step 5 from which the file
    of [B] is missing. *)
Definition half_written : World string :=
  set_files (λ _, {[ "./restart/A_rst_000005.xml" := "<saved/>" ]})
    two_bodies.

(** The bodies [A] and [B] with their reload files in place. *)
Definition reloadable : World string :=
  set_files (λ _, {[ "./reload/A_rld.xml" := "<a0/>";
                     "./reload/B_rld.xml" := "<b0/>" ]})
    two_bodies.

End Scenario.

(** ** Reload files *)


Section ReloadPaths.
Context {P : Type}.

Definition reload_folder (this : ReloadParticleIO.t) : string :=
  IOEnvironment.reload_folder_
    (BaseIO.io_environment_ (ReloadParticleIO.base this)).

(** The reload file of the body at [b], for a [ReloadParticleIO] that was
    constructed in the world [w]. *)
Definition reload_file (this : ReloadParticleIO.t) (w : World P) (b : nat)
    : string :=
  reload_folder this +:+ "/" +:+ name_in w b +:+ "_rld.xml".

End ReloadPaths.

(** * Properties *)

(** ** Strings *)

Module StrFacts.
Import Str.

Lemma app_nil_l (s : string) : "" +:+ s = s.
Proof. reflexivity. Qed.

Lemma app_cons (c : ascii) (s1 s2 : string) :
  String c s1 +:+ s2 = String c (s1 +:+ s2).
Proof. reflexivity. Qed.

Lemma app_nil_r (s : string) : s +:+ "" = s.
Proof. induction s as [|c s IH]; [done|]. by rewrite app_cons, IH. Qed.

Lemma app_assoc (s1 s2 s3 : string) : (s1 +:+ s2) +:+ s3 = s1 +:+ s2 +:+ s3.
Proof. induction s1 as [|c s1 IH]; [done|]. by rewrite !app_cons, IH. Qed.

Lemma length_app (s1 s2 : string) :
  String.length (s1 +:+ s2) = (String.length s1 + String.length s2)%nat.
Proof.
  induction s1 as [|c s1 IH]; [done|]. rewrite app_cons. simpl. by rewrite IH.
Qed.

Lemma length_zeros (n : nat) : String.length (zeros n) = n.
Proof. induction n as [|n IH]; simpl; [done|]. by rewrite IH. Qed.

(** Equal strings whose suffixes have one length have equal suffixes. *)
Lemma app_inj_suffix (s1 s2 t1 t2 : string) :
  String.length t1 = String.length t2 →
  s1 +:+ t1 = s2 +:+ t2 → s1 = s2 ∧ t1 = t2.
Proof.
  intros Hlen. revert s2.
  induction s1 as [|c s1 IH]; intros [|c' s2] Heq;
    rewrite ?app_cons, ?app_nil_l in Heq.
  - done.
  - exfalso. apply (f_equal String.length) in Heq.
    simpl in Heq. rewrite length_app in Heq. lia.
  - exfalso. apply (f_equal String.length) in Heq.
    simpl in Heq. rewrite length_app in Heq. lia.
  - injection Heq as -> Heq. destruct (IH _ Heq) as [-> ->]. done.
Qed.

Lemma app_inj_r (s1 s2 t : string) : s1 +:+ t = s2 +:+ t → s1 = s2.
Proof. intros H. by apply (app_inj_suffix s1 s2 t t) in H as [? _]. Qed.

End StrFacts.

(** ** Decimal digits *)

Module DigitsFacts.
Import Digits.

Lemma digit_of_char (x : N) :
  (x < 10)%N → digit_of (pretty_N_char x) = Some x.
Proof.
  intros Hx. rewrite <- (N2Nat.id x).
  assert (N.to_nat x < 10)%nat as Hn by lia. revert Hn.
  generalize (N.to_nat x) as n. intros n Hn.
  do 10 (destruct n as [|n]; [reflexivity|]). lia.
Qed.

Lemma all_digits_app (s1 s2 : string) :
  all_digits (s1 +:+ s2) = all_digits s1 && all_digits s2.
Proof.
  induction s1 as [|c s1 IH]; simpl; [done|].
  by rewrite IH, andb_assoc.
Qed.

Lemma digits_value_app (s1 s2 : string) (acc : N) :
  digits_value (s1 +:+ s2) acc = digits_value s2 (digits_value s1 acc).
Proof. revert acc. induction s1 as [|c s1 IH]; intros acc; simpl; auto. Qed.

Lemma digits_value_acc (s : string) (acc : N) :
  digits_value s acc
  = (acc * 10 ^ N.of_nat (String.length s) + digits_value s 0)%N.
Proof.
  revert acc. induction s as [|c s IH]; intros acc.
  - simpl. lia.
  - cbn [digits_value String.length].
    rewrite IH, (IH (10 * 0 + _)%N), Nat2N.inj_succ, N.pow_succ_r'. lia.
Qed.

Lemma digits_value_zeros (n : nat) (s : string) :
  digits_value (Str.zeros n +:+ s) 0 = digits_value s 0.
Proof. induction n; simpl; auto. Qed.

(** Reading a number followed by something that is not a digit. *)
Lemma read_digits_app (d rest : string) (acc : N) (cnt : nat) :
  all_digits d = true → stops rest →
  read_digits (d +:+ rest) acc cnt
  = (digits_value d acc, (cnt + String.length d)%nat, rest).
Proof.
  intros Hd Hrest. revert acc cnt Hd.
  induction d as [|c d IH]; intros acc cnt Hd; simpl in *.
  - rewrite Nat.add_0_r. destruct rest as [|c r]; [done|].
    simpl in *. by rewrite Hrest.
  - apply andb_prop in Hd as [Hc Hd]. apply bool_decide_eq_true in Hc.
    destruct Hc as [x Hx]. rewrite Hx. simpl.
    rewrite IH by done. f_equal. f_equal. lia.
Qed.

(** What [operator<<] prints for an unsigned integer: its decimal digits,
    most significant first, and they denote the integer. *)
Lemma pretty_N_go_digits (x : N) (s : string) :
  ∃ d, pretty_N_go x s = d +:+ s ∧ all_digits d = true
       ∧ digits_value d 0 = x.
Proof.
  revert s. induction (N.lt_wf_0 x) as [x _ IH]; intros s.
  destruct (decide (x = 0)%N) as [->|Hx].
  - exists "". by rewrite pretty_N_go_0.
  - rewrite pretty_N_go_step by lia.
    destruct (IH (x `div` 10)%N) with
      (s := String (pretty_N_char (x `mod` 10)) s)
      as (d & Hd & Hall & Hval).
    { apply N.div_lt; lia. }
    exists (d +:+ String (pretty_N_char (x `mod` 10)) "").
    assert ((x `mod` 10 < 10)%N) as Hm by (apply N.mod_lt; lia).
    rewrite Hd, StrFacts.app_assoc, all_digits_app, digits_value_app.
    rewrite Hall, Hval.
    simpl. rewrite (digit_of_char _ Hm). simpl.
    split; [done|]. split; [done|].
    rewrite (N.div_mod x 10) at 3 by lia. done.
Qed.

Lemma pretty_N_digits (x : N) :
  all_digits (pretty x) = true ∧ digits_value (pretty x) 0 = x.
Proof.
  unfold pretty, pretty_N. case_decide as Hx; [by subst|].
  destruct (pretty_N_go_digits x "") as (d & Hd & Hall & Hval).
  rewrite StrFacts.app_nil_r in Hd. by rewrite Hd.
Qed.

Lemma fixed_digits_spec (k : nat) (x : N) (s : string) :
  ∃ d, fixed_digits k x s = d +:+ s ∧ all_digits d = true
       ∧ String.length d = k
       ∧ digits_value d 0 = (x `mod` 10 ^ N.of_nat k)%N.
Proof.
  revert x s. induction k as [|k IH]; intros x s.
  - exists "". simpl. by rewrite N.mod_1_r.
  - cbn [fixed_digits].
    destruct (IH (x `div` 10)%N (String (pretty_N_char (x `mod` 10)) s))
      as (d & Hd & Hall & Hlen & Hval).
    exists (d +:+ String (pretty_N_char (x `mod` 10)) "").
    assert ((x `mod` 10 < 10)%N) as Hm by (apply N.mod_lt; lia).
    rewrite Hd, StrFacts.app_assoc, all_digits_app, digits_value_app.
    rewrite Hall, Hval.
    rewrite StrFacts.length_app, Hlen. simpl.
    rewrite (digit_of_char _ Hm). simpl.
    split; [done|]. split; [done|]. split; [lia|].
    rewrite Nat2N.inj_succ, N.pow_succ_r'.
    rewrite (N.Div0.mod_mul_r x 10). lia.
Qed.

End DigitsFacts.

(** ** Formatted input and output of [Real] values *)

Module RealIOFacts.
Import Digits DigitsFacts RealIO.

Lemma digit_not_space (c : ascii) :
  is_Some (digit_of c) → Ascii.is_space c = false.
Proof.
  destruct c as [[] [] [] [] [] [] [] []]; simpl; intros [x Hx]; done.
Qed.

Lemma digit_not_sign (c : ascii) (s : string) :
  is_Some (digit_of c) → read_sign (String c s) = (false, String c s).
Proof.
  destruct c as [[] [] [] [] [] [] [] []]; simpl; intros [x Hx]; done.
Qed.

Lemma pretty_N_cons (x : N) :
  ∃ c d, pretty x = String c d ∧ is_Some (digit_of c).
Proof.
  destruct (pretty_N_digits x) as [Hall Hval].
  destruct (pretty x) as [|c d] eqn:Hp.
  - simpl in Hval. subst x. done.
  - exists c, d. split; [done|]. simpl in Hall.
    apply andb_prop in Hall as [Hc _]. by apply bool_decide_eq_true in Hc.
Qed.

(** Reading back what [print_fixed] wrote gives the rounded value. *)
Lemma parse_print_fixed (p : nat) (t : Q) (rest : string) :
  stops rest →
  parse_real (print_fixed p t +:+ rest) = Some (round_fixed p t).
Proof.
  intros Hrest. unfold print_fixed, round_fixed.
  set (m := scaled p t).
  set (ip := (m `div` 10 ^ N.of_nat p)%N).
  set (fp := (m `mod` 10 ^ N.of_nat p)%N).
  destruct (pretty_N_cons ip) as (c & d & Hp & Hc).
  destruct (pretty_N_digits ip) as [Hall Hval].
  destruct (fixed_digits_spec p fp "") as (fd & Hfd & Hfall & Hflen & Hfval).
  rewrite StrFacts.app_nil_r in Hfd.
  assert (∀ neg s,
    read_sign (skip_ws s) = (neg, pretty ip +:+ "." +:+ fd +:+ rest) →
    parse_real s
    = Some (Qmake (if neg then - Z.of_N m else Z.of_N m) (pow10 p)))
    as Hparse.
  { intros neg s Hs. unfold parse_real. rewrite Hs.
    rewrite read_digits_app by done.
    rewrite StrFacts.app_cons, StrFacts.app_nil_l.
    rewrite read_digits_app by done.
    rewrite Hflen, !Nat.add_0_l.
    assert ((String.length (pretty ip) + p =? 0)%nat = false) as ->.
    { apply Nat.eqb_neq. rewrite Hp. simpl. lia. }
    rewrite (digits_value_acc fd), Hflen, Hfval, Hval.
    assert (ip * 10 ^ N.of_nat p + fp `mod` 10 ^ N.of_nat p = m)%N as ->;
      [|done].
    subst ip fp. rewrite N.Div0.mod_mod.
    rewrite (N.div_mod m (10 ^ N.of_nat p)) at 3
      by (apply N.pow_nonzero; lia). lia. }
  rewrite Hfd, !StrFacts.app_assoc.
  destruct (Qnum t <? 0).
  - apply (Hparse true). rewrite StrFacts.app_cons, StrFacts.app_nil_l. done.
  - apply (Hparse false). rewrite StrFacts.app_nil_l, Hp, StrFacts.app_cons.
    cbn [skip_ws]. rewrite (digit_not_space c Hc).
    by apply digit_not_sign.
Qed.



Example print_fixed_example :
  print_fixed 9 (3 # 2) = "1.500000000"
  ∧ print_fixed 9 (- 1 # 8) = "-0.125000000"
  ∧ print_fixed 9 (1 # 1024) = "0.000976562"
  ∧ parse_real "  0.000976562   " = Some (976562 # 1000000000)%Q.
Proof. repeat split; vm_compute; reflexivity. Qed.

End RealIOFacts.

(** ** Reasoning about computations *)

Section ProcFacts.
Context {P : Type}.

Lemma bind_returns {A B} (c : Proc P A) (f : A → Proc P B) w a w' :
  c w = Returns a w' → (c ≫= f) w = f a w'.
Proof. intros H. unfold mbind, Proc_bind. by rewrite H. Qed.

Lemma bind_exits {A B} (c : Proc P A) (f : A → Proc P B) w status w' :
  c w = Exits status w' → (c ≫= f) w = Exits status w'.
Proof. intros H. unfold mbind, Proc_bind. by rewrite H. Qed.

(** A counting loop over the indices of a vector is a loop over its
    elements. *)
Lemma for_loop_foreach {A} (xs : list A) (body : nat → Proc P unit)
    (g : A → Proc P unit) (first : nat) :
  (∀ i x w, xs !! i = Some x → body (first + i)%nat w = g x w) →
  ∀ w, for_loop first (length xs) body w = foreach g xs w.
Proof.
  revert first. induction xs as [|x xs IH]; intros first Hbody w; [done|].
  cbn [for_loop foreach length]. unfold mbind, Proc_bind.
  rewrite <- (Hbody 0%nat x w eq_refl), Nat.add_0_r.
  destruct (body first w) as [[] w'| |]; [|done..].
  apply IH. intros i y w'' Hi.
  rewrite <- (Hbody (S i) y w'' Hi). f_equal. lia.
Qed.

Lemma foreach_app {A} (g : A → Proc P unit) (xs ys : list A) w :
  foreach g (xs ++ ys) w = (foreach g xs;; foreach g ys) w.
Proof.
  revert w. induction xs as [|x xs IH]; intros w; [done|].
  cbn [foreach app]. unfold mbind, Proc_bind in *.
  destruct (g x w) as [[] w'| |]; [|done..]. apply IH.
Qed.

(** A loop of steps that all return is the fold of their effects. *)
Lemma foreach_returns {A} (g : A → Proc P unit) (step : World P → A → World P)
    (Inv : World P → Prop) (xs : list A) w :
  (∀ x w, x ∈ xs → Inv w → g x w = Returns tt (step w x) ∧ Inv (step w x)) →
  Inv w →
  foreach g xs w = Returns tt (foldl step w xs) ∧ Inv (foldl step w xs).
Proof.
  revert w. induction xs as [|x xs IH]; intros w Hstep Hw; [done|].
  cbn [foreach foldl].
  destruct (Hstep x w) as [Hg Hinv]; [by left|done|].
  rewrite (bind_returns _ _ _ _ _ Hg).
  apply IH; [|done]. intros y w' Hy. apply Hstep. by right.
Qed.

Lemma transform_returns {A B} (f : A → Proc P B) (v : list A) out w w' :
  (∀ x w y w', f x w = Returns y w' → w' = w) →
  transform f v w = Returns out w' →
  w' = w ∧ Forall2 (λ x y, f x w = Returns y w) v out.
Proof.
  intros Hpure. revert out w'.
  induction v as [|x v IH]; intros out w' Hrun.
  - injection Hrun as <- <-. by split.
  - cbn [transform] in Hrun. unfold mbind, Proc_bind in Hrun.
    destruct (f x w) as [y w1| |] eqn:Hfx; [|done..].
    apply Hpure in Hfx as Hw1. subst w1.
    destruct (transform f v w) as [out' w2| |] eqn:Hrest; [|done..].
    destruct (IH out' w2 eq_refl) as [-> Hall].
    injection Hrun as <- <-. split; [done|]. by constructor.
Qed.

Lemma transform_total {A B} (f : A → Proc P B) (h : A → B) (v : list A) w :
  (∀ x, x ∈ v → f x w = Returns (h x) w) →
  transform f v w = Returns (h <$> v) w.
Proof.
  induction v as [|x v IH]; intros Hf; [done|].
  cbn [transform]. rewrite (bind_returns _ _ _ _ _ (Hf x ltac:(by left))).
  rewrite (bind_returns _ _ _ _ _ (IH (λ y Hy, Hf y ltac:(by right)))).
  done.
Qed.

End ProcFacts.

(** ** The loops of [RestartIO] *)

Section RestartFacts.
Context {P : Type} {particle_xml : ParticleXml P} {width : FieldWidth}
  {file : SourceFile}.

Lemma write_one_returns (k : N) (x : string * nat) (w : World P) :
  is_Some (heap w !! x.2) →
  write_one k x w = Returns tt (write_step k w x).
Proof.
  intros [b Hb]. unfold write_one, write_step, fs_exists, fs_remove,
    body_writeParticlesToXmlForRestart, deref, gets, modify.
  unfold mbind, Proc_bind, mret, Proc_ret. cbn.
  case_bool_decide; cbn; rewrite Hb; cbn; [|done].
  unfold set_calls, set_files; cbn. by rewrite insert_delete_eq.
Qed.

Lemma restore_one_returns (k : N) (x : string * nat) (w : World P) :
  is_Some (heap w !! x.2) → is_Some (files w !! restart_path k x.1) →
  restore_one k x w = Returns tt (restore_step k w x).
Proof.
  intros [b Hb] [xml Hxml]. unfold restore_one, restore_step, fs_exists,
    body_readParticlesFromXmlForRestart, deref, gets, modify.
  unfold mbind, Proc_bind, mret, Proc_ret. cbn.
  rewrite bool_decide_eq_true_2 by by rewrite Hxml.
  cbn. rewrite Hb. cbn. rewrite Hxml. done.
Qed.

Lemma restore_one_missing (k : N) (x : string * nat) (w : World P) :
  files w !! restart_path k x.1 = None →
  restore_one k x w = Exits 1 (diagnosed (restart_path k x.1) 99 w).
Proof.
  intros Hnone. unfold restore_one, fs_exists, gets.
  unfold mbind, Proc_bind, mret, Proc_ret. cbn.
  rewrite bool_decide_eq_false_2; [done|]. rewrite Hnone. by intros [? ?].
Qed.

(** The loops, over the pairs of a file name prefix and a body. *)
Lemma writeToFile_loop (this : RestartIO.t) (k : N) (w : World P) :
  length (RestartIO.file_names_ this) = length (RestartIO.bodies_ this) →
  for_loop 0 (length (RestartIO.bodies_ this)) (λ i,
    name ← at_index (RestartIO.file_names_ this) i;
    let filefullpath := name +:+ padValueWithZeros k +:+ ".xml" in
    found ← fs_exists filefullpath;
    (if found : bool then fs_remove filefullpath else mret tt);;
    body ← at_index (RestartIO.bodies_ this) i;
    body_writeParticlesToXmlForRestart body filefullpath) w
  = foreach (write_one k)
      (zip (RestartIO.file_names_ this) (RestartIO.bodies_ this)) w.
Proof.
  intros Hlen.
  replace (length (RestartIO.bodies_ this)) with
    (length (zip (RestartIO.file_names_ this) (RestartIO.bodies_ this)))
    by (by rewrite length_zip, Hlen, Nat.min_id).
  apply for_loop_foreach.
  intros i [name body] w' Hi. apply lookup_zip_with_Some in Hi
    as (n & b & [= -> ->] & Hn & Hb).
  unfold at_index. cbn. rewrite Hn, Hb. reflexivity.
Qed.

Lemma readFromFile_loop (this : RestartIO.t) (k : N) (w : World P) :
  length (RestartIO.file_names_ this) = length (RestartIO.bodies_ this) →
  RestartIO.readFromFile this k w
  = foreach (restore_one k)
      (zip (RestartIO.file_names_ this) (RestartIO.bodies_ this)) w.
Proof.
  intros Hlen. unfold RestartIO.readFromFile.
  replace (length (RestartIO.bodies_ this)) with
    (length (zip (RestartIO.file_names_ this) (RestartIO.bodies_ this)))
    by (by rewrite length_zip, Hlen, Nat.min_id).
  apply for_loop_foreach.
  intros i [name body] w' Hi. apply lookup_zip_with_Some in Hi
    as (n & b & [= -> ->] & Hn & Hb).
  unfold at_index. cbn. rewrite Hn, Hb. reflexivity.
Qed.

End RestartFacts.

(** ** Construction *)

Section ConstructionFacts.
Context {P : Type} {particle_xml : ParticleXml P}.

Lemma getName_returns (body : nat) (w w' : World P) (name : string) :
  getName body w = Returns name w' →
  w' = w ∧ is_Some (heap w !! body) ∧ name = name_in w body.
Proof.
  unfold getName, deref, gets, name_in, mbind, Proc_bind. cbn.
  destruct (heap w !! body) as [b|]; [|done]. cbn.
  intros [= <- <-]. eauto.
Qed.

Lemma getName_total (body : nat) (w : World P) :
  is_Some (heap w !! body) → getName body w = Returns (name_in w body) w.
Proof.
  intros [b Hb]. unfold getName, deref, gets, name_in, mbind, Proc_bind.
  cbn. by rewrite Hb.
Qed.

Lemma getSPHSystem_total (body : nat) (b : SPHBody P) (w : World P) :
  heap w !! body = Some b → getSPHSystem body w = Returns (sph_system b) w.
Proof.
  intros Hb. unfold getSPHSystem, deref, gets, mbind, Proc_bind.
  cbn. by rewrite Hb.
Qed.

Lemma getSPHSystem_returns (body : nat) (w w' : World P) (s : SPHSystem.t) :
  getSPHSystem body w = Returns s w' → is_Some (heap w !! body).
Proof.
  unfold getSPHSystem, deref, gets, mbind, Proc_bind. cbn.
  destruct (heap w !! body) as [b|]; [eauto|done].
Qed.

Lemma names_total (f : string → string) (bodies : list nat) (w : World P) :
  valid_bodies bodies w →
  transform (λ body, name ← getName body; mret (f name)) bodies w
  = Returns ((λ b, f (name_in w b)) <$> bodies) w.
Proof.
  intros Hvalid. apply transform_total. intros b Hb.
  by rewrite (bind_returns _ _ _ _ _ (getName_total b w (Hvalid b Hb))).
Qed.

Lemma names_returns (f : string → string) (bodies : list nat)
    (w w' : World P) (out : list string) :
  transform (λ body, name ← getName body; mret (f name)) bodies w
  = Returns out w' →
  valid_bodies bodies w.
Proof.
  intros Hrun. apply transform_returns in Hrun as [-> Hall].
  - intros b Hb. apply list_elem_of_lookup in Hb as [i Hi].
    destruct (Forall2_lookup_l _ _ _ _ _ Hall Hi) as (n & _ & Hn).
    unfold mbind, Proc_bind in Hn.
    destruct (getName b w) as [name w1| |] eqn:Hname; [|done..].
    by apply getName_returns in Hname as (_ & ? & _).
  - intros b w1 n w2. unfold mbind, Proc_bind.
    destruct (getName b w1) as [name w3| |] eqn:Hname; [|done..].
    apply getName_returns in Hname as (-> & _ & _). by intros [= _ <-].
Qed.

Lemma restart_new_total (b0 : nat) (o0 : SPHBody P) (rest : list nat)
    (w : World P) :
  valid_bodies (b0 :: rest) w → heap w !! b0 = Some o0 →
  RestartIO.new (b0 :: rest) w = Returns (restart_io w o0 (b0 :: rest)) w.
Proof.
  intros Hvalid Hb0. unfold RestartIO.new.
  rewrite (bind_returns (at_index (b0 :: rest) 0) _ w b0 w eq_refl).
  rewrite (bind_returns _ _ w _ w (getSPHSystem_total b0 o0 w Hb0)).
  cbv zeta.
  rewrite (bind_returns _ _ _ _ _ (names_total _ (b0 :: rest) w Hvalid)).
  done.
Qed.

Lemma restart_new_returns (bodies : list nat) (w w' : World P)
    (this : RestartIO.t) :
  RestartIO.new bodies w = Returns this w' →
  w' = w ∧ valid_bodies bodies w
  ∧ ∃ b0 o0 rest, bodies = b0 :: rest ∧ heap w !! b0 = Some o0
                  ∧ this = restart_io w o0 bodies.
Proof.
  intros Hrun. destruct bodies as [|b0 rest]; [done|].
  assert (valid_bodies (b0 :: rest) w) as Hvalid.
  { revert Hrun. unfold RestartIO.new.
    rewrite (bind_returns (at_index (b0 :: rest) 0) _ w b0 w eq_refl).
    destruct (getSPHSystem b0 w) as [s w1| |] eqn:Hsys;
      [|by rewrite (bind_exits _ _ _ _ _ Hsys)
       |by unfold mbind, Proc_bind; rewrite Hsys].
    apply getSPHSystem_returns in Hsys as Hb0. destruct Hb0 as [o0 Hb0].
    rewrite (getSPHSystem_total b0 o0 w Hb0) in Hsys.
    injection Hsys as <- <-.
    rewrite (bind_returns _ _ w _ w (getSPHSystem_total b0 o0 w Hb0)).
    cbv zeta. unfold mbind at 1, Proc_bind.
    destruct (transform _ _ w) as [out w1| |] eqn:Hnames; [|done..].
    intros _. by apply names_returns in Hnames. }
  destruct (Hvalid b0) as [o0 Hb0]; [by left|].
  rewrite (restart_new_total b0 o0 rest w Hvalid Hb0) in Hrun.
  injection Hrun as <- <-. eauto 10.
Qed.

Lemma reload_new_total (b0 : nat) (o0 : SPHBody P) (rest : list nat)
    (w : World P) :
  valid_bodies (b0 :: rest) w → heap w !! b0 = Some o0 →
  ReloadParticleIO.new (b0 :: rest) w
  = Returns (reload_io w o0 (b0 :: rest)) w.
Proof.
  intros Hvalid Hb0. unfold ReloadParticleIO.new.
  rewrite (bind_returns (at_index (b0 :: rest) 0) _ w b0 w eq_refl).
  rewrite (bind_returns _ _ w _ w (getSPHSystem_total b0 o0 w Hb0)).
  cbv zeta.
  rewrite (bind_returns _ _ _ _ _ (names_total _ (b0 :: rest) w Hvalid)).
  done.
Qed.

End ConstructionFacts.

(** ** What the loops of [RestartIO] leave behind *)

Section RestartFolds.
Context {P : Type} {particle_xml : ParticleXml P} {width : FieldWidth}
  {file : SourceFile}.

Lemma write_step_heap (k : N) (w : World P) (x : string * nat) :
  heap (write_step k w x) = heap w.
Proof. unfold write_step. by destruct (heap w !! x.2). Qed.

Lemma write_fold_heap (k : N) (xs : list (string * nat)) (w : World P) :
  heap (foldl (write_step k) w xs) = heap w
  ∧ cout (foldl (write_step k) w xs) = cout w
  ∧ physical_time_ (foldl (write_step k) w xs) = physical_time_ w.
Proof.
  induction xs as [|x xs IH] using rev_ind; [done|].
  rewrite foldl_snoc. destruct IH as (Hh & Hc & Ht).
  unfold write_step. by destruct (heap _ !! x.2).
Qed.

Lemma write_loop_returns (k : N) (xs : list (string * nat)) (w : World P) :
  valid_bodies xs.*2 w →
  foreach (write_one k) xs w = Returns tt (foldl (write_step k) w xs).
Proof.
  intros Hvalid.
  apply (foreach_returns (write_one k) (write_step k)
           (λ w', heap w' = heap w)); [|done].
  intros x w' Hx Hheap. split.
  - apply write_one_returns. rewrite Hheap. apply Hvalid.
    by apply list_elem_of_fmap_2.
  - by rewrite write_step_heap.
Qed.

Lemma write_fold_calls (k : N) (xs : list (string * nat)) (w : World P) :
  valid_bodies xs.*2 w →
  calls (foldl (write_step k) w xs)
  = calls w ++ ((λ x, WriteRestart x.2 (restart_path k x.1)) <$> xs).
Proof.
  induction xs as [|x xs IH] using rev_ind; intros Hvalid.
  { by rewrite app_nil_r. }
  assert (valid_bodies xs.*2 w) as Hvalid'.
  { intros b Hb. apply Hvalid. rewrite fmap_app, elem_of_app. by left. }
  rewrite foldl_snoc. unfold write_step at 1.
  destruct (write_fold_heap k xs w) as (-> & _ & _).
  destruct (Hvalid x.2) as [o ->].
  { rewrite fmap_app, elem_of_app. right. by left. }
  cbn. by rewrite IH, fmap_app, app_assoc.
Qed.

Lemma write_fold_dom (k : N) (xs : list (string * nat)) (w : World P) :
  valid_bodies xs.*2 w →
  dom (files (foldl (write_step k) w xs))
  = dom (files w) ∪ list_to_set ((λ x, restart_path k x.1) <$> xs).
Proof.
  induction xs as [|x xs IH] using rev_ind; intros Hvalid.
  { cbn. set_solver. }
  assert (valid_bodies xs.*2 w) as Hvalid'.
  { intros b Hb. apply Hvalid. rewrite fmap_app, elem_of_app. by left. }
  rewrite foldl_snoc, fmap_app, list_to_set_app_L.
  unfold write_step at 1.
  destruct (write_fold_heap k xs w) as (-> & _ & _).
  destruct (Hvalid x.2) as [o ->].
  { rewrite fmap_app, elem_of_app. right. by left. }
  cbn. rewrite dom_insert_L, IH by done. set_solver.
Qed.

Lemma write_fold_other (k : N) (xs : list (string * nat)) (w : World P)
    (path : string) :
  path ∉ (λ x, restart_path k x.1) <$> xs →
  files (foldl (write_step k) w xs) !! path = files w !! path.
Proof.
  induction xs as [|x xs IH] using rev_ind; intros Hpath; [done|].
  rewrite fmap_app, not_elem_of_app in Hpath. destruct Hpath as [Hxs Hx].
  rewrite foldl_snoc. unfold write_step at 1.
  destruct (heap _ !! x.2); [|by apply IH]. cbn.
  rewrite lookup_insert_ne; [by apply IH|]. set_solver.
Qed.


Lemma restore_step_files (k : N) (w : World P) (x : string * nat) :
  files (restore_step k w x) = files w
  ∧ cout (restore_step k w x) = cout w
  ∧ physical_time_ (restore_step k w x) = physical_time_ w
  ∧ ∀ b, is_Some (heap w !! b) → is_Some (heap (restore_step k w x) !! b).
Proof.
  unfold restore_step.
  destruct (heap w !! x.2) as [o|] eqn:Ho,
    (files w !! restart_path k x.1) as [xml|]; cbn; try done.
  repeat split; try done. intros b Hb.
  destruct (decide (x.2 = b)) as [<-|Hne].
  - by rewrite lookup_insert_eq.
  - by rewrite lookup_insert_ne.
Qed.

Lemma restore_fold_files (k : N) (xs : list (string * nat)) (w : World P) :
  files (foldl (restore_step k) w xs) = files w
  ∧ cout (foldl (restore_step k) w xs) = cout w
  ∧ physical_time_ (foldl (restore_step k) w xs) = physical_time_ w
  ∧ ∀ b, is_Some (heap w !! b) →
         is_Some (heap (foldl (restore_step k) w xs) !! b).
Proof.
  induction xs as [|x xs IH] using rev_ind; [done|].
  rewrite foldl_snoc. destruct IH as (Hf & Hc & Ht & Hv).
  destruct (restore_step_files k (foldl (restore_step k) w xs) x)
    as (Hf' & Hc' & Ht' & Hv').
  rewrite Hf', Hc', Ht'. repeat split; try done.
  intros b Hb. by apply Hv', Hv.
Qed.

Lemma restore_loop_returns (k : N) (xs : list (string * nat)) (w : World P) :
  valid_bodies xs.*2 w →
  (∀ x, x ∈ xs → is_Some (files w !! restart_path k x.1)) →
  foreach (restore_one k) xs w = Returns tt (foldl (restore_step k) w xs).
Proof.
  intros Hvalid Hfiles.
  apply (foreach_returns (restore_one k) (restore_step k)
           (λ w', files w' = files w
                  ∧ ∀ b, is_Some (heap w !! b) → is_Some (heap w' !! b)));
    [|done].
  intros x w' Hx [Hf Hv].
  destruct (restore_step_files k w' x) as (Hf' & _ & _ & Hv').
  split; [|split; [congruence|auto]].
  apply restore_one_returns.
  - apply Hv, Hvalid. by apply list_elem_of_fmap_2.
  - rewrite Hf. by apply Hfiles.
Qed.

(** A missing file ends the loop after the bodies in front of it. *)
Lemma restore_loop_exits (k : N) (pre post : list (string * nat))
    (x : string * nat) (w : World P) :
  valid_bodies pre.*2 w →
  (∀ y, y ∈ pre → is_Some (files w !! restart_path k y.1)) →
  files w !! restart_path k x.1 = None →
  foreach (restore_one k) (pre ++ x :: post) w
  = Exits 1 (diagnosed (restart_path k x.1) 99
               (foldl (restore_step k) w pre)).
Proof.
  intros Hvalid Hfiles Hmissing. rewrite foreach_app.
  rewrite (bind_returns _ _ _ _ _
             (restore_loop_returns k pre w Hvalid Hfiles)).
  cbn [foreach]. apply bind_exits, restore_one_missing.
  by destruct (restore_fold_files k pre w) as (-> & _).
Qed.

Lemma restore_fold_calls (k : N) (xs : list (string * nat)) (w : World P) :
  valid_bodies xs.*2 w →
  (∀ x, x ∈ xs → is_Some (files w !! restart_path k x.1)) →
  calls (foldl (restore_step k) w xs)
  = calls w ++ ((λ x, ReadRestart x.2 (restart_path k x.1)) <$> xs).
Proof.
  induction xs as [|x xs IH] using rev_ind; intros Hvalid Hfiles.
  { by rewrite app_nil_r. }
  assert (valid_bodies xs.*2 w) as Hvalid'.
  { intros b Hb. apply Hvalid. rewrite fmap_app, elem_of_app. by left. }
  rewrite foldl_snoc. unfold restore_step at 1.
  destruct (restore_fold_files k xs w) as (-> & _ & _ & Hv).
  destruct (Hv x.2) as [o ->].
  { apply Hvalid. rewrite fmap_app, elem_of_app. right. by left. }
  destruct (Hfiles x) as [xml ->]; [set_solver|].
  cbn. rewrite IH, fmap_app, app_assoc; [done..|].
  intros y Hy. apply Hfiles. set_solver.
Qed.


End RestartFolds.

(** ** [RestartIO], whole member functions *)

Section RestartMemberFacts.
Context {P : Type} {particle_xml : ParticleXml P} {width : FieldWidth}
  {file : SourceFile}.

Lemma overall_not_restart (this : RestartIO.t) (k k' : N) (name : string) :
  overall_path this k ≠ restart_path k' name.
Proof.
  unfold overall_path, restart_path. rewrite <- !StrFacts.app_assoc.
  intros Heq. by apply StrFacts.app_inj_suffix in Heq as [_ ?].
Qed.

Lemma zip_fmap_diag {A B} (f : A → B) (l : list A) :
  zip (f <$> l) l = (λ x, (f x, x)) <$> l.
Proof. induction l as [|x l IH]; [done|]. cbn. by rewrite IH. Qed.

Lemma restart_pairs_io (w : World P) (b0 : SPHBody P) (bodies : list nat) :
  restart_pairs (restart_io w b0 bodies)
  = (λ b, (restart_folder (restart_io w b0 bodies)
           +:+ "/" +:+ name_in w b +:+ "_rst_", b)) <$> bodies.
Proof. unfold restart_pairs. cbn. by rewrite zip_fmap_diag. Qed.

Lemma restart_pairs_bodies (w : World P) (b0 : SPHBody P)
    (bodies : list nat) :
  (restart_pairs (restart_io w b0 bodies)).*2 = bodies
  ∧ length (RestartIO.file_names_ (restart_io w b0 bodies))
    = length (RestartIO.bodies_ (restart_io w b0 bodies)).
Proof.
  rewrite restart_pairs_io, <- list_fmap_compose. cbn.
  by rewrite list_fmap_id, length_fmap.
Qed.


Lemma writeToFile_returns (this : RestartIO.t) (k : N) (w : World P) :
  length (RestartIO.file_names_ this) = length (RestartIO.bodies_ this) →
  valid_bodies (RestartIO.bodies_ this) w →
  RestartIO.writeToFile this k w
  = Returns tt
      (foldl (write_step k)
         (set_files <[overall_path this k := time_line (physical_time_ w)]> w)
         (restart_pairs this)).
Proof.
  intros Hlen Hvalid. unfold RestartIO.writeToFile.
  assert (∀ w', heap w' = heap w →
    for_loop 0 (length (RestartIO.bodies_ this)) (λ i,
      name ← at_index (RestartIO.file_names_ this) i;
      let filefullpath := name +:+ padValueWithZeros k +:+ ".xml" in
      found ← fs_exists filefullpath;
      (if found : bool then fs_remove filefullpath else mret tt);;
      body ← at_index (RestartIO.bodies_ this) i;
      body_writeParticlesToXmlForRestart body filefullpath) w'
    = Returns tt (foldl (write_step k) w' (restart_pairs this))) as Hloop.
  { intros w' Hheap. rewrite writeToFile_loop by done.
    apply write_loop_returns. unfold restart_pairs.
    rewrite snd_zip by lia. intros b Hb. rewrite Hheap. by apply Hvalid. }
  cbv zeta. fold (overall_path this k).
  unfold fs_exists, fs_remove, ofstream_app, gets, modify.
  unfold mbind at 1 2 3 4, Proc_bind, mret, Proc_ret. cbn.
  case_bool_decide as Hfound; cbn.
  - rewrite Hloop by done. do 2 f_equal. unfold set_files. cbn.
    by rewrite lookup_delete_eq, insert_delete_eq.
  - rewrite Hloop by done. do 2 f_equal. unfold set_files. cbn.
    destruct (files w !! overall_path this k) eqn:Hfile; [|done].
    destruct Hfound. eauto.
Qed.

Lemma readRestartTime_returns (this : RestartIO.t) (k : N) (w : World P)
    (content : string) :
  files w !! overall_path this k = Some content →
  RestartIO.readRestartTime this k w
  = Returns (default 0%Q (RealIO.parse_real content)) (announced k w).
Proof.
  intros Hfile. unfold RestartIO.readRestartTime. cbv zeta.
  fold (overall_path this k).
  unfold print, fs_exists, ifstream_real, gets, modify.
  unfold mbind, Proc_bind, mret, Proc_ret. cbn.
  rewrite bool_decide_eq_true_2 by (by rewrite Hfile). cbn.
  by rewrite Hfile.
Qed.

Lemma readRestartTime_exits (this : RestartIO.t) (k : N) (w : World P) :
  files w !! overall_path this k = None →
  RestartIO.readRestartTime this k w
  = Exits 1 (diagnosed (overall_path this k) 79 (announced k w)).
Proof.
  intros Hfile. unfold RestartIO.readRestartTime. cbv zeta.
  fold (overall_path this k).
  unfold print, fs_exists, ifstream_real, gets, modify.
  unfold mbind, Proc_bind, mret, Proc_ret. cbn.
  rewrite bool_decide_eq_false_2; [done|]. rewrite Hfile. by intros [? ?].
Qed.

(** The overall file after [RestartIO::writeToFile]. *)
Lemma writeToFile_overall (this : RestartIO.t) (k : N) (w : World P) :
  files (foldl (write_step k)
           (set_files <[overall_path this k := time_line (physical_time_ w)]>
              w)
           (restart_pairs this)) !! overall_path this k
  = Some (time_line (physical_time_ w)).
Proof.
  rewrite write_fold_other.
  - cbn. by rewrite lookup_insert_eq.
  - intros Hin. apply list_elem_of_fmap in Hin as (x & Heq & _).
    by apply overall_not_restart in Heq.
Qed.

Lemma parse_time_line (time : Q) :
  RealIO.parse_real (time_line time) = Some (RealIO.round_fixed 9 time).
Proof. by apply RealIOFacts.parse_print_fixed. Qed.

End RestartMemberFacts.

(** ** The naming scheme *)

Lemma padValueWithZeros_value {width : FieldWidth} (i : N) :
  Digits.digits_value (padValueWithZeros i) 0 = i.
Proof.
  unfold padValueWithZeros. rewrite DigitsFacts.digits_value_zeros.
  apply DigitsFacts.pretty_N_digits.
Qed.

(** C8. For every index [i], the padded token is at least as long as the
    configured field width; padding is injective on the indices below
    [10 ^ W]; and an index whose decimal representation is longer than the
    width is given in full, untruncated. *)
Theorem padValueWithZeros_width_injective {width : FieldWidth} (i j : N) :
  (max_string_width ≤ String.length (padValueWithZeros i))%nat
  ∧ ((i < 10 ^ N.of_nat max_string_width)%N →
     (j < 10 ^ N.of_nat max_string_width)%N →
     padValueWithZeros i = padValueWithZeros j → i = j)
  ∧ ((max_string_width < String.length (pretty i))%nat →
     padValueWithZeros i = pretty i).
Proof.
  split; [|split].
  - unfold padValueWithZeros.
    rewrite StrFacts.length_app, StrFacts.length_zeros. lia.
  - intros _ _ Heq.
    by rewrite <- (padValueWithZeros_value i), Heq, padValueWithZeros_value.
  - intros Hlong. unfold padValueWithZeros.
    by replace (max_string_width - String.length (pretty i))%nat with 0%nat
      by lia.
Qed.

Lemma padValueWithZeros_width_injective_witness :
  (6 ≤ String.length (padValueWithZeros (width := 6%nat) 5%N))%nat
  ∧ 5%N = 5%N
  ∧ padValueWithZeros (width := 6%nat) 1234567%N = "1234567".
Proof.
  split; [|split].
  - apply (padValueWithZeros_width_injective (width := 6%nat) 5 5).
  - apply (padValueWithZeros_width_injective (width := 6%nat) 5 5);
      [vm_compute; reflexivity..].
  - apply (padValueWithZeros_width_injective (width := 6%nat)
             1234567 0). vm_compute. lia.
Defined.

(** ** Restart round trip *)

Section RoundTrip.
Context {P : Type} {particle_xml : ParticleXml P} {width : FieldWidth}
  {file : SourceFile}.


Lemma elem_of_restart_pairs (w : World P) (b0 : SPHBody P)
    (bodies : list nat) (b : nat) :
  b ∈ bodies →
  ∃ x, x ∈ restart_pairs (restart_io w b0 bodies) ∧ x.2 = b.
Proof.
  intros Hb. rewrite restart_pairs_io. eexists (_, b). split; [|done].
  apply list_elem_of_fmap. eauto.
Qed.

End RoundTrip.



Lemma two_bodies_valid : valid_bodies [1%nat; 2%nat] Scenario.two_bodies.
Proof.
  intros b Hb. apply elem_of_cons in Hb as [->|Hb];
    [|apply list_elem_of_singleton in Hb as ->]; vm_compute; eauto.
Qed.




(** ** Overwriting a checkpoint *)



(** ** Reading a checkpoint that is not there *)

Section Missing.
Context {P : Type} {particle_xml : ParticleXml P} {width : FieldWidth}
  {file : SourceFile}.

Lemma diagnosed_names_path (path : string) (line : N) (w : World P) :
  names_path (cout (diagnosed path line w)) path.
Proof.
  exists (cout w +:+ nl +:+ " Error: the input file:"),
    (" is not exists" +:+ nl +:+ FILE +:+ ":" +:+ pretty line +:+ nl).
  cbn. by rewrite !StrFacts.app_assoc.
Qed.

Lemma diagnosed_cout (path : string) (line : N) (w w' : World P) :
  cout w = cout w' →
  cout (diagnosed path line w) = cout (diagnosed path line w').
Proof. unfold diagnosed, set_cout. cbn. by intros ->. Qed.

Lemma restart_pairs_lookup (w : World P) (b0 : SPHBody P)
    (bodies : list nat) (k : N) (i : nat) (x : string * nat) :
  restart_pairs (restart_io w b0 bodies) !! i = Some x ↔
  bodies !! i = Some x.2
  ∧ restart_path k x.1 = restart_file (restart_io w b0 bodies) w k x.2.
Proof.
  rewrite restart_pairs_io, list_lookup_fmap. unfold restart_file.
  destruct (bodies !! i) as [b|]; cbn; [|naive_solver].
  split.
  - by intros [= <-].
  - intros [[= ->] Hpath]. destruct x as [n b]. cbn in *.
    unfold restart_path in Hpath. apply StrFacts.app_inj_r in Hpath.
    by rewrite Hpath.
Qed.

(** After the loop of [readFromFile], each body holds what was read from
    its file, when one body has one file. *)
Lemma restore_fold_read (k : N) (xs : list (string * nat)) (w : World P) :
  (∀ y z, y ∈ xs → z ∈ xs → y.2 = z.2 →
          restart_path k y.1 = restart_path k z.1) →
  valid_bodies xs.*2 w →
  (∀ x, x ∈ xs → is_Some (files w !! restart_path k x.1)) →
  ∀ x, x ∈ xs → ∃ o xml p,
    heap (foldl (restore_step k) w xs) !! x.2 = Some o
    ∧ files w !! restart_path k x.1 = Some xml
    ∧ base_particles_ o = readParticlesFromXmlForRestart xml p.
Proof.
  induction xs as [|y xs IH] using rev_ind; intros Hone Hvalid Hfiles x Hx.
  { by apply elem_of_nil in Hx. }
  rewrite foldl_snoc. unfold restore_step at 1.
  destruct (restore_fold_files k xs w) as (-> & _ & _ & Hv).
  destruct (Hv y.2) as [o Ho].
  { apply Hvalid. rewrite fmap_app, elem_of_app. right. by left. }
  destruct (Hfiles y) as [xml Hxml]; [set_solver|].
  rewrite Ho, Hxml. cbn.
  destruct (decide (x.2 = y.2)) as [Heq|Hne].
  - rewrite Heq, lookup_insert_eq.
    exists (set_particles
              (readParticlesFromXmlForRestart xml (base_particles_ o)) o),
      xml, (base_particles_ o).
    split; [done|]. split; [|done].
    rewrite (Hone x y); [done|set_solver..|done].
  - rewrite lookup_insert_ne by done. apply IH.
    + intros ?????. apply Hone; set_solver.
    + intros b Hb. apply Hvalid. rewrite fmap_app, elem_of_app. by left.
    + intros z Hz. apply Hfiles. set_solver.
    + apply elem_of_app in Hx as [?|Hx]; [done|].
      apply list_elem_of_singleton in Hx. by subst.
Qed.

End Missing.

(** C2. When the overall file of step [k] is missing, [readRestartTime(k)]
    ends the process with status 1 after a diagnostic that names the path;
    when the restart file of one of the bodies is missing, so does
    [readFromFile(k)], the diagnostic naming a path that is missing.
    Neither returns. *)
Theorem restart_read_missing {P : Type} {particle_xml : ParticleXml P}
    {width : FieldWidth} {file : SourceFile}
    (bodies : list nat) (k : N) (this : RestartIO.t) (wc wc' w : World P) :
  RestartIO.new bodies wc = Returns this wc' →
  (files w !! overall_path this k = None →
   ∃ w', RestartIO.readRestartTime this k w = Exits 1 w'
     ∧ w' = diagnosed (overall_path this k) 79 (announced k w)
     ∧ names_path (cout w') (overall_path this k))
  ∧ (valid_bodies bodies w →
     ∀ b, b ∈ bodies → files w !! restart_file this wc k b = None →
     ∃ path w', RestartIO.readFromFile this k w = Exits 1 w'
       ∧ files w !! path = None
       ∧ cout w' = cout (diagnosed path 99 w)
       ∧ names_path (cout w') path).
Proof.
  intros Hnew. split.
  - intros Hmissing. eexists. split; [by apply readRestartTime_exits|].
    split; [done|]. apply diagnosed_names_path.
  - intros Hvalid b Hb Hmissing.
    apply restart_new_returns in Hnew
      as (-> & Hvalidc & b0 & o0 & rest & Hbodies & Hb0 & ->).
    set (this := restart_io wc o0 bodies) in *.
    destruct (restart_pairs_bodies wc o0 bodies) as [Hsnd Hlen].
    fold this in Hsnd, Hlen.
    destruct (elem_of_restart_pairs wc o0 bodies b Hb) as (x & Hx & <-).
    fold this in Hx.
    apply list_elem_of_lookup in Hx as Hi. destruct Hi as [i Hi].
    apply (restart_pairs_lookup wc o0 bodies k) in Hi as [_ Hpath].
    fold this in Hpath. rewrite <- Hpath in Hmissing.
    destruct (list_find_elem_of
                (λ y, files w !! restart_path k y.1 = None)
                (restart_pairs this) x Hx Hmissing) as [[j y] Hfind].
    apply list_find_Some in Hfind as (Hj & Hy & Hbefore).
    exists (restart_path k y.1). eexists.
    rewrite readFromFile_loop by done. fold (restart_pairs this).
    rewrite <- (take_drop_middle _ _ _ Hj).
    rewrite restore_loop_exits; [|..|done].
    + split; [done|]. split; [done|]. split.
      * apply diagnosed_cout.
        by destruct (restore_fold_files k (take j (restart_pairs this)) w)
          as (_ & -> & _).
      * apply diagnosed_names_path.
    + intros b' Hb'. apply Hvalid. rewrite <- Hsnd.
      apply list_elem_of_fmap in Hb' as (z & -> & Hz).
      apply list_elem_of_fmap_2. apply elem_of_take in Hz as (? & ? & _).
      by eapply list_elem_of_lookup_2.
    + intros z Hz. apply elem_of_take in Hz as (j' & Hz & Hlt).
      specialize (Hbefore j' z Hz Hlt). cbn in Hbefore.
      by destruct (files w !! restart_path k z.1); [eauto|].
Qed.

(** Reading step 5 where nothing was written. *)
Lemma restart_read_missing_witness :
  let this := restart_io Scenario.two_bodies (Scenario.body "A" "<a/>")
                [1%nat; 2%nat] in
  (∃ w', RestartIO.readRestartTime (width := Scenario.width6)
           (file := Scenario.source) this 5 Scenario.two_bodies
         = Exits 1 w'
     ∧ w' = diagnosed (file := Scenario.source)
              (overall_path (width := Scenario.width6) this 5) 79
              (announced 5 Scenario.two_bodies)
     ∧ names_path (cout w')
         (overall_path (width := Scenario.width6) this 5))
  ∧ ∃ path w', RestartIO.readFromFile
                 (particle_xml := Scenario.xml_particles)
                 (width := Scenario.width6) (file := Scenario.source)
                 this 5 Scenario.two_bodies
               = Exits 1 w'
       ∧ files Scenario.two_bodies !! path = None
       ∧ cout w' = cout (diagnosed (file := Scenario.source) path 99
                           Scenario.two_bodies)
       ∧ names_path (cout w') path.
Proof.
  destruct (restart_read_missing (particle_xml := Scenario.xml_particles)
              (width := Scenario.width6) (file := Scenario.source)
              [1%nat; 2%nat] 5 _
              Scenario.two_bodies Scenario.two_bodies Scenario.two_bodies
              ltac:(vm_compute; reflexivity)) as [Htime Hbodies].
  split.
  - apply Htime. vm_compute. reflexivity.
  - apply (Hbodies two_bodies_valid 2%nat).
    + right. left.
    + vm_compute. reflexivity.
Defined.

(** ** A restore that stops half way *)

(** C10. When the restart file of the body at position [i] is missing and
    those of the positions before it exist, [readFromFile(k)] ends the
    process with status 1, and by then the bodies at the positions before
    [i] have been read, in order: the capability calls made are theirs, and
    each of them holds particles that come from reading its file. *)
Theorem restart_read_not_atomic {P : Type} {particle_xml : ParticleXml P}
    {width : FieldWidth} {file : SourceFile}
    (bodies : list nat) (k : N) (this : RestartIO.t) (wc wc' w : World P)
    (i : nat) (b : nat) :
  RestartIO.new bodies wc = Returns this wc' →
  valid_bodies bodies w →
  bodies !! i = Some b →
  files w !! restart_file this wc k b = None →
  (∀ j b', (j < i)%nat → bodies !! j = Some b' →
           is_Some (files w !! restart_file this wc k b')) →
  ∃ w', RestartIO.readFromFile this k w = Exits 1 w'
    ∧ names_path (cout w') (restart_file this wc k b)
    ∧ calls w'
      = calls w ++ ((λ b', ReadRestart b' (restart_file this wc k b'))
                    <$> take i bodies)
    ∧ ∀ j b', (j < i)%nat → bodies !! j = Some b' →
        ∃ o xml p, heap w' !! b' = Some o
          ∧ files w !! restart_file this wc k b' = Some xml
          ∧ base_particles_ o = readParticlesFromXmlForRestart xml p.
Proof.
  intros Hnew Hvalid Hi Hmissing Hbefore.
  apply restart_new_returns in Hnew
    as (-> & Hvalidc & b0 & o0 & rest & Hbodies & Hb0 & ->).
  set (this := restart_io wc o0 bodies) in *.
  destruct (restart_pairs_bodies wc o0 bodies) as [Hsnd Hlen].
  fold this in Hsnd, Hlen.
  set (f := λ b' : nat,
         (restart_folder this +:+ "/" +:+ name_in wc b' +:+ "_rst_", b')).
  assert (restart_pairs this = f <$> bodies) as Hpairs
    by apply restart_pairs_io.
  assert (∀ b', restart_path k (f b').1 = restart_file this wc k b')
    as Hfile by done.
  assert (valid_bodies (take i (f <$> bodies)).*2 w) as Hvalid'.
  { intros b' Hb'. apply Hvalid.
    apply list_elem_of_fmap in Hb' as (z & -> & Hz).
    apply elem_of_take in Hz as (j & Hz & _).
    apply list_lookup_fmap_Some in Hz as (b' & -> & Hb').
    by eapply list_elem_of_lookup_2. }
  assert (∀ y, y ∈ take i (f <$> bodies) →
               is_Some (files w !! restart_path k y.1)) as Hexist.
  { intros y Hy. apply elem_of_take in Hy as (j & Hy & Hlt).
    apply list_lookup_fmap_Some in Hy as (b' & -> & Hb').
    rewrite Hfile. by eapply Hbefore. }
  eexists. split.
  { rewrite readFromFile_loop by done. fold (restart_pairs this).
    rewrite Hpairs.
    rewrite <- (take_drop_middle (f <$> bodies) i (f b))
      by (by rewrite list_lookup_fmap, Hi).
    by apply restore_loop_exits. }
  split; [apply diagnosed_names_path|]. split.
  - cbn. rewrite restore_fold_calls by done.
    by rewrite <- fmap_take, <- list_fmap_compose.
  - intros j b' Hlt Hj. cbn.
    destruct (restore_fold_read k (take i (f <$> bodies)) w) with (x := f b')
      as (o & xml & p & Ho & Hxml & Hp); [|done..| |].
    + intros y z Hy Hz Heq.
      apply elem_of_take in Hy as (? & Hy & _).
      apply elem_of_take in Hz as (? & Hz & _).
      apply list_lookup_fmap_Some in Hy as (? & -> & _).
      apply list_lookup_fmap_Some in Hz as (? & -> & _).
      cbn in Heq. by subst.
    + apply elem_of_take. exists j. split; [|done].
      by rewrite list_lookup_fmap, Hj.
    + rewrite Hfile in Hxml. cbn in Ho. by exists o, xml, p.
Qed.

(** The file of [A] is there, the file of [B] is not. *)
Lemma restart_read_not_atomic_witness :
  let this := restart_io Scenario.half_written (Scenario.body "A" "<a/>")
                [1%nat; 2%nat] in
  ∃ w', RestartIO.readFromFile (particle_xml := Scenario.xml_particles)
          (width := Scenario.width6) (file := Scenario.source)
          this 5 Scenario.half_written
        = Exits 1 w'
    ∧ names_path (cout w') "./restart/B_rst_000005.xml"
    ∧ calls w' = [ReadRestart 1 "./restart/A_rst_000005.xml"]
    ∧ ∀ j b', (j < 1)%nat → [1%nat; 2%nat] !! j = Some b' →
        ∃ o xml p, heap w' !! b' = Some o
          ∧ files Scenario.half_written
              !! restart_file (width := Scenario.width6) this
                   Scenario.half_written 5 b'
            = Some xml
          ∧ base_particles_ o
            = readParticlesFromXmlForRestart
                (ParticleXml := Scenario.xml_particles) xml p.
Proof.
  intros this.
  apply (restart_read_not_atomic (particle_xml := Scenario.xml_particles)
           (width := Scenario.width6) (file := Scenario.source)
           [1%nat; 2%nat] 5 this
           Scenario.half_written Scenario.half_written Scenario.half_written
           1 2).
  - vm_compute. reflexivity.
  - apply two_bodies_valid.
  - reflexivity.
  - vm_compute. reflexivity.
  - intros [|j] b' Hj; [|lia]. intros [= <-]. vm_compute. eauto.
Defined.

(** ** [ReloadParticleIO] *)

Section Reload.
Context {P : Type} {particle_xml : ParticleXml P} {file : SourceFile}.

Lemma reload_write_one_returns (x : string * nat) (w : World P) :
  is_Some (heap w !! x.2) →
  reload_write_one x w = Returns tt (reload_write_step w x).
Proof.
  intros [b Hb]. unfold reload_write_one, reload_write_step, fs_exists,
    fs_remove, body_writeToXmlForReloadParticle, deref, gets, modify.
  unfold mbind, Proc_bind, mret, Proc_ret. cbn.
  case_bool_decide; cbn; rewrite Hb; cbn; [|done].
  unfold set_calls, set_files; cbn. by rewrite insert_delete_eq.
Qed.

Lemma reload_read_one_returns (x : string * nat) (w : World P) :
  is_Some (heap w !! x.2) → is_Some (files w !! x.1) →
  reload_read_one x w = Returns tt (reload_read_step w x).
Proof.
  intros [b Hb] [xml Hxml]. unfold reload_read_one, reload_read_step,
    fs_exists, body_readFromXmlForReloadParticle, deref, gets, modify.
  unfold mbind, Proc_bind, mret, Proc_ret. cbn.
  rewrite bool_decide_eq_true_2 by by rewrite Hxml.
  cbn. rewrite Hb. cbn. rewrite Hxml. done.
Qed.

Lemma reload_writeToFile_loop (this : ReloadParticleIO.t) (k : N)
    (w : World P) :
  length (ReloadParticleIO.file_names_ this)
  = length (ReloadParticleIO.bodies_ this) →
  ReloadParticleIO.writeToFile this k w
  = foreach reload_write_one (reload_pairs this) w.
Proof.
  intros Hlen. unfold ReloadParticleIO.writeToFile.
  replace (length (ReloadParticleIO.bodies_ this)) with
    (length (reload_pairs this))
    by (by unfold reload_pairs; rewrite length_zip, Hlen, Nat.min_id).
  apply for_loop_foreach.
  intros i [name body] w' Hi. apply lookup_zip_with_Some in Hi
    as (n & b & [= -> ->] & Hn & Hb).
  unfold at_index. cbn. rewrite Hn, Hb. reflexivity.
Qed.

Lemma reload_readFromFile_loop (this : ReloadParticleIO.t) (k : N)
    (w : World P) :
  length (ReloadParticleIO.file_names_ this)
  = length (ReloadParticleIO.bodies_ this) →
  ReloadParticleIO.readFromFile this k w
  = foreach reload_read_one (reload_pairs this)
      (set_cout (λ out, out +:+ nl +:+ " Reloading particles from files."
                        +:+ nl) w).
Proof.
  intros Hlen. unfold ReloadParticleIO.readFromFile.
  rewrite (bind_returns (print _) _ w tt _ eq_refl).
  replace (length (ReloadParticleIO.bodies_ this)) with
    (length (reload_pairs this))
    by (by unfold reload_pairs; rewrite length_zip, Hlen, Nat.min_id).
  apply for_loop_foreach.
  intros i [name body] w' Hi. apply lookup_zip_with_Some in Hi
    as (n & b & [= -> ->] & Hn & Hb).
  unfold at_index. cbn. rewrite Hn, Hb. reflexivity.
Qed.

Lemma reload_write_fold (xs : list (string * nat)) (w : World P) :
  valid_bodies xs.*2 w →
  heap (foldl reload_write_step w xs) = heap w
  ∧ calls (foldl reload_write_step w xs)
    = calls w ++ ((λ x, WriteReload x.2 x.1) <$> xs)
  ∧ dom (files (foldl reload_write_step w xs))
    = dom (files w) ∪ list_to_set xs.*1.
Proof.
  induction xs as [|x xs IH] using rev_ind; intros Hvalid.
  { cbn. rewrite app_nil_r. set_solver. }
  destruct IH as (Hheap & Hcalls & Hdom).
  { intros b Hb. apply Hvalid. rewrite fmap_app, elem_of_app. by left. }
  rewrite foldl_snoc. unfold reload_write_step at 1 3 5. rewrite Hheap.
  destruct (Hvalid x.2) as [o ->].
  { rewrite fmap_app, elem_of_app. right. by left. }
  cbn. rewrite Hcalls, dom_insert_L, Hdom, !fmap_app, list_to_set_app_L.
  cbn. rewrite app_assoc. split; [done|]. split; [done|]. set_solver.
Qed.

Lemma reload_write_returns (xs : list (string * nat)) (w : World P) :
  valid_bodies xs.*2 w →
  foreach reload_write_one xs w = Returns tt (foldl reload_write_step w xs).
Proof.
  intros Hvalid.
  apply (foreach_returns reload_write_one reload_write_step
           (λ w', heap w' = heap w)); [|done].
  intros x w' Hx Hheap. split.
  - apply reload_write_one_returns. rewrite Hheap. apply Hvalid.
    by apply list_elem_of_fmap_2.
  - unfold reload_write_step. by destruct (heap w' !! x.2).
Qed.

Lemma reload_read_fold (xs : list (string * nat)) (w : World P) :
  valid_bodies xs.*2 w →
  (∀ x, x ∈ xs → is_Some (files w !! x.1)) →
  files (foldl reload_read_step w xs) = files w
  ∧ (∀ b, is_Some (heap w !! b) →
          is_Some (heap (foldl reload_read_step w xs) !! b))
  ∧ calls (foldl reload_read_step w xs)
    = calls w ++ ((λ x, ReadReload x.2 x.1) <$> xs).
Proof.
  induction xs as [|x xs IH] using rev_ind; intros Hvalid Hfiles.
  { cbn. by rewrite app_nil_r. }
  destruct IH as (Hf & Hv & Hcalls).
  { intros b Hb. apply Hvalid. rewrite fmap_app, elem_of_app. by left. }
  { intros y Hy. apply Hfiles. set_solver. }
  rewrite foldl_snoc. unfold reload_read_step at 1 3 5. rewrite Hf.
  destruct (Hv x.2) as [o ->].
  { apply Hvalid. rewrite fmap_app, elem_of_app. right. by left. }
  destruct (Hfiles x) as [xml ->]; [set_solver|].
  cbn. rewrite Hcalls, fmap_app, app_assoc.
  split; [done|]. split; [|done]. intros b Hb.
  destruct (decide (x.2 = b)) as [<-|Hne].
  - by rewrite lookup_insert_eq.
  - rewrite lookup_insert_ne by done. by apply Hv.
Qed.

Lemma reload_read_returns (xs : list (string * nat)) (w : World P) :
  valid_bodies xs.*2 w →
  (∀ x, x ∈ xs → is_Some (files w !! x.1)) →
  foreach reload_read_one xs w = Returns tt (foldl reload_read_step w xs).
Proof.
  intros Hvalid Hfiles.
  apply (foreach_returns reload_read_one reload_read_step
           (λ w', files w' = files w
                  ∧ ∀ b, is_Some (heap w !! b) → is_Some (heap w' !! b)));
    [|done].
  intros x w' Hx [Hf Hv].
  assert (is_Some (heap w' !! x.2)) as [o Ho].
  { apply Hv, Hvalid. by apply list_elem_of_fmap_2. }
  assert (is_Some (files w' !! x.1)) as [xml Hxml].
  { rewrite Hf. by apply Hfiles. }
  split; [apply reload_read_one_returns; eauto|].
  unfold reload_read_step. rewrite Ho, Hxml. cbn. split; [done|].
  intros b Hb. destruct (decide (x.2 = b)) as [<-|Hne].
  - by rewrite lookup_insert_eq.
  - rewrite lookup_insert_ne by done. by apply Hv.
Qed.

End Reload.

(** C6. For every step argument, [ReloadParticleIO::writeToFile] and
    [ReloadParticleIO::readFromFile] do the same as for any other: the
    argument reaches no path. The files they touch are, body by body, the
    paths of [file_names_], which were fixed at construction. *)
Theorem reload_step_unused {P : Type} {particle_xml : ParticleXml P}
    {file : SourceFile} (this : ReloadParticleIO.t) (k1 k2 : N)
    (w : World P) :
  ReloadParticleIO.writeToFile this k1 w
  = ReloadParticleIO.writeToFile this k2 w
  ∧ ReloadParticleIO.readFromFile this k1 w
    = ReloadParticleIO.readFromFile this k2 w
  ∧ (length (ReloadParticleIO.file_names_ this)
     = length (ReloadParticleIO.bodies_ this) →
     valid_bodies (ReloadParticleIO.bodies_ this) w →
     (∃ w', ReloadParticleIO.writeToFile this k1 w = Returns tt w'
        ∧ calls w'
          = calls w ++ ((λ x, WriteReload x.2 x.1) <$> reload_pairs this)
        ∧ dom (files w')
          = dom (files w) ∪ list_to_set (ReloadParticleIO.file_names_ this))
     ∧ ((∀ path, path ∈ ReloadParticleIO.file_names_ this →
                 is_Some (files w !! path)) →
        ∃ w', ReloadParticleIO.readFromFile this k1 w = Returns tt w'
          ∧ calls w'
            = calls w ++ ((λ x, ReadReload x.2 x.1) <$> reload_pairs this)
          ∧ files w' = files w)).
Proof.
  split; [done|]. split; [done|]. intros Hlen Hvalid.
  assert ((reload_pairs this).*2 = ReloadParticleIO.bodies_ this) as Hsnd.
  { unfold reload_pairs. rewrite snd_zip; [done|lia]. }
  assert ((reload_pairs this).*1 = ReloadParticleIO.file_names_ this) as Hfst.
  { unfold reload_pairs. rewrite fst_zip; [done|lia]. }
  split.
  - eexists. rewrite reload_writeToFile_loop by done.
    split; [apply reload_write_returns; by rewrite Hsnd|].
    destruct (reload_write_fold (reload_pairs this) w) as (_ & Hcalls & Hdom).
    { by rewrite Hsnd. }
    by rewrite Hcalls, Hdom, Hfst.
  - intros Hfiles. rewrite reload_readFromFile_loop by done.
    set (w0 := set_cout _ w).
    assert (∀ x, x ∈ reload_pairs this → is_Some (files w0 !! x.1)) as Hex.
    { intros x Hx. apply Hfiles. rewrite <- Hfst.
      by apply list_elem_of_fmap_2. }
    exists (foldl reload_read_step w0 (reload_pairs this)).
    split; [apply reload_read_returns; [by rewrite Hsnd|done]|].
    destruct (reload_read_fold (reload_pairs this) w0) as (Hf & _ & Hcalls);
      [by rewrite Hsnd|done|].
    by rewrite Hcalls, Hf.
Qed.

(** Writing and reading the bodies [A] and [B] at the steps 5 and 7. *)
Lemma reload_step_unused_witness :
  let this := reload_io Scenario.reloadable (Scenario.body "A" "<a/>")
                [1%nat; 2%nat] in
  ReloadParticleIO.new [1%nat; 2%nat] Scenario.reloadable
  = Returns this Scenario.reloadable
  ∧ (∃ w', ReloadParticleIO.writeToFile
             (particle_xml := Scenario.xml_particles) this 5
             Scenario.reloadable
           = Returns tt w'
       ∧ calls w'
         = calls Scenario.reloadable
           ++ ((λ x, WriteReload x.2 x.1) <$> reload_pairs this)
       ∧ dom (files w')
         = dom (files Scenario.reloadable)
           ∪ list_to_set (ReloadParticleIO.file_names_ this))
  ∧ ∃ w', ReloadParticleIO.readFromFile
            (particle_xml := Scenario.xml_particles)
            (file := Scenario.source) this 5 Scenario.reloadable
          = Returns tt w'
      ∧ calls w'
        = calls Scenario.reloadable
          ++ ((λ x, ReadReload x.2 x.1) <$> reload_pairs this)
      ∧ files w' = files Scenario.reloadable.
Proof.
  intros this. split.
  - apply reload_new_total; [apply two_bodies_valid|reflexivity].
  - destruct (reload_step_unused (particle_xml := Scenario.xml_particles)
                (file := Scenario.source) this 5 7 Scenario.reloadable)
      as (_ & _ & Hpaths).
    destruct Hpaths as [Hwrite Hread].
    + reflexivity.
    + apply two_bodies_valid.
    + split; [done|]. apply Hread. intros path Hpath.
      apply elem_of_cons in Hpath as [->|Hpath];
        [|apply list_elem_of_singleton in Hpath as ->]; vm_compute; eauto.
Defined.

(** C7. A [ReloadParticleIO] constructed for a body under an override name
    writes the file [<reload-folder>/<override>_rld.xml]; a second one,
    constructed under the same override name for any body of a system with
    that reload folder, whatever the body's own name, reads that file into
    its body. *)
Theorem reload_cross_name {P : Type} {particle_xml : ParticleXml P}
    {file : SourceFile} (a b : nat) (given_body_name : string)
    (body_a : SPHBody P) (k k' : N) (w0 : World P) :
  heap w0 !! a = Some body_a →
  let folder :=
    IOEnvironment.reload_folder_
      (SPHSystem.io_environment_ (sph_system body_a)) in
  let path := folder +:+ "/" +:+ given_body_name +:+ "_rld.xml" in
  ∃ writer w1,
    ReloadParticleIO.new_named a given_body_name w0 = Returns writer w0
    ∧ ReloadParticleIO.file_names_ writer = [path]
    ∧ ReloadParticleIO.writeToFile writer k w0 = Returns tt w1
    ∧ files w1 !! path
      = Some (writeToXmlForReloadParticle (base_particles_ body_a))
    ∧ ∀ (w2 : World P) (body_b : SPHBody P),
        files w2 !! path = files w1 !! path →
        heap w2 !! b = Some body_b →
        IOEnvironment.reload_folder_
          (SPHSystem.io_environment_ (sph_system body_b)) = folder →
        ∃ reader w3,
          ReloadParticleIO.new_named b given_body_name w2 = Returns reader w2
          ∧ ReloadParticleIO.file_names_ reader = [path]
          ∧ ReloadParticleIO.readFromFile reader k' w2 = Returns tt w3
          ∧ heap w3 !! b
            = Some (set_particles
                      (readFromXmlForReloadParticle
                         (writeToXmlForReloadParticle (base_particles_ body_a))
                         (base_particles_ body_b))
                      body_b).
Proof.
  intros Ha folder path.
  assert (∀ (c : nat) (body_c : SPHBody P) (w : World P),
    heap w !! c = Some body_c →
    ReloadParticleIO.new_named c given_body_name w
    = Returns
        {| ReloadParticleIO.base := BaseIO.new (sph_system body_c);
           ReloadParticleIO.bodies_ := [c];
           ReloadParticleIO.file_names_ :=
             [IOEnvironment.reload_folder_
                (SPHSystem.io_environment_ (sph_system body_c))
              +:+ "/" +:+ given_body_name +:+ "_rld.xml"] |} w) as Hnew.
  { intros c body_c w Hc. unfold ReloadParticleIO.new_named.
    by rewrite (bind_returns _ _ w _ w (getSPHSystem_total c body_c w Hc)). }
  eexists _, _. split; [by apply Hnew|]. split; [done|].
  assert (∀ w, heap w !! a = Some body_a →
    ReloadParticleIO.writeToFile
      {| ReloadParticleIO.base := BaseIO.new (sph_system body_a);
         ReloadParticleIO.bodies_ := [a];
         ReloadParticleIO.file_names_ := [path] |} k w
    = Returns tt (reload_write_step w (path, a))) as Hwrite.
  { intros w Hw. rewrite reload_writeToFile_loop by done.
    unfold reload_pairs. cbn [zip zip_with foreach ReloadParticleIO.bodies_
      ReloadParticleIO.file_names_].
    rewrite (bind_returns _ _ w tt _
               (reload_write_one_returns (path, a) w ltac:(by eexists))).
    done. }
  split; [by apply Hwrite|].
  unfold reload_write_step. cbn [fst snd]. rewrite Ha. cbn.
  split; [by rewrite lookup_insert_eq|].
  intros w2 body_b Hfile Hb Hfolder.
  rewrite lookup_insert_eq in Hfile.
  eexists _, _. split; [by apply Hnew|]. rewrite Hfolder.
  split; [done|].
  rewrite reload_readFromFile_loop by done.
  unfold reload_pairs. cbn [zip zip_with foreach ReloadParticleIO.bodies_
    ReloadParticleIO.file_names_].
  set (w2' := set_cout _ w2).
  rewrite (bind_returns _ _ w2' tt _
             (reload_read_one_returns (path, b) w2'
                ltac:(by eexists) ltac:(by eexists))).
  split; [done|].
  unfold reload_read_step. cbn. rewrite Hb, Hfile. cbn.
  by rewrite lookup_insert_eq.
Qed.

(** The body [A] written as [Ashape], and read back into the body at the
    other address, which is called [B]. *)
Lemma reload_cross_name_witness :
  ∃ writer w1,
    ReloadParticleIO.new_named 1 "Ashape" Scenario.two_bodies
    = Returns writer Scenario.two_bodies
    ∧ ReloadParticleIO.file_names_ writer = ["./reload/Ashape_rld.xml"]
    ∧ ReloadParticleIO.writeToFile (particle_xml := Scenario.xml_particles)
        writer 0 Scenario.two_bodies
      = Returns tt w1
    ∧ files w1 !! "./reload/Ashape_rld.xml" = Some "<a/>"
    ∧ ∃ reader w3,
        ReloadParticleIO.new_named 2 "Ashape" w1 = Returns reader w1
        ∧ ReloadParticleIO.readFromFile
            (particle_xml := Scenario.xml_particles)
            (file := Scenario.source) reader 0 w1
          = Returns tt w3
        ∧ heap w3 !! 2%nat = Some (Scenario.body "B" "<a/>").
Proof.
  destruct (reload_cross_name (particle_xml := Scenario.xml_particles)
              (file := Scenario.source) 1 2 "Ashape"
              (Scenario.body "A" "<a/>") 0 0 Scenario.two_bodies
              ltac:(reflexivity))
    as (writer & w1 & Hnew & Hnames & Hwrite & Hfile & Hread).
  exists writer, w1. repeat (split; [done|]).
  destruct (Hread w1 (Scenario.body "B" "<b/>") eq_refl)
    as (reader & w3 & Hnew' & _ & Hread' & Hb).
  - injection Hnew as <-. vm_compute in Hwrite. by injection Hwrite as <-.
  - reflexivity.
  - by exists reader, w3.
Defined.

(** ** Two bodies *)




(** ** The token of a physical time *)

(** C9. The token that [convertPhysicalTimeToString] returns does not
    depend on its argument: whatever is passed, the result is the one
    computed from the global physical time. *)
Theorem convertPhysicalTimeToString_ignores_argument {P : Type}
    {width : FieldWidth} (this : BaseIO.t) (t1 t2 : Q) (w : World P) :
  BaseIO.convertPhysicalTimeToString this t1 w
  = BaseIO.convertPhysicalTimeToString this t2 w
  ∧ BaseIO.convertPhysicalTimeToString this t1 w
    = (i_time ← BaseIO.int_of_real (physical_time_ w * (1000000 # 1));
       mret (padValueWithZeros i_time)) w.
Proof. split; reflexivity. Qed.

(** When the argument is the current physical time, as it is at the call
    in [BodyStatesRecording::writeToFile], and the time is not negative and
    its index fits an [int], the token is the one of the specification. *)
Lemma convertPhysicalTimeToString_current_time {P : Type}
    {width : FieldWidth} (this : BaseIO.t) (w : World P) :
  (0 <= physical_time_ w)%Q →
  Qfloor (physical_time_ w * (1000000 # 1)) < 2 ^ 31 →
  BaseIO.convertPhysicalTimeToString this (physical_time_ w) w
  = Returns (token_of_time_spec (physical_time_ w)) w.
Proof.
  intros Hpos Hfit.
  unfold BaseIO.convertPhysicalTimeToString, BaseIO.int_of_real,
    token_of_time_spec, gets, mbind, Proc_bind, mret, Proc_ret.
  destruct (physical_time_ w) as [n d]. cbn in *.
  unfold Qle in Hpos. cbn in Hpos.
  assert (0 ≤ n * 1000000) as Hn by lia.
  rewrite Z.quot_div_nonneg by lia.
  assert (0 ≤ (n * 1000000) `div` Z.pos (d * 1)) by (apply Z.div_pos; lia).
  rewrite bool_decide_eq_true_2 by lia. done.
Qed.

(** So the one caller, [BodyStatesRecording::writeToFile()], names its
    files after the token of the specification. *)
Lemma recording_token_current_time {P : Type} {width : FieldWidth}
    (writeWithFileName : BodyStatesRecording.t → string → Proc P unit)
    (this : BodyStatesRecording.t) (w : World P) :
  (0 <= physical_time_ w)%Q →
  Qfloor (physical_time_ w * (1000000 # 1)) < 2 ^ 31 →
  BodyStatesRecording.writeToFile writeWithFileName this w
  = writeWithFileName this (token_of_time_spec (physical_time_ w)) w.
Proof.
  intros Hpos Hfit. unfold BodyStatesRecording.writeToFile.
  rewrite (bind_returns (gets physical_time_) _ w _ w eq_refl).
  by rewrite (bind_returns _ _ w _ w
                (convertPhysicalTimeToString_current_time _ w Hpos Hfit)).
Qed.

(** C3 against the code: with the clock at 0, the token for the argument
    1.5 is the token of 0, where the specification asks for the token of
    [floor(1.5 * 1000000) = 1500000]. *)
Lemma convertPhysicalTimeToString_not_of_argument :
  BaseIO.convertPhysicalTimeToString (width := Scenario.width6)
    (BaseIO.new Scenario.system) (3 # 2) (Scenario.world 0 [])
  = Returns "000000" (Scenario.world 0 [])
  ∧ token_of_time_spec (width := Scenario.width6) (3 # 2) = "1500000".
Proof. split; vm_compute; reflexivity. Qed.

(** * Further properties of the code *)

(** ** Paths of different kinds and of different steps *)

Section PathFacts.
Context {width : FieldWidth}.

Lemma all_digits_snoc (s : string) :
  Digits.all_digits s = true → s ≠ "" →
  ∃ front c, s = front +:+ String c "" ∧ is_Some (Digits.digit_of c).
Proof.
  induction s as [|c s IH]; intros Hall Hne; [done|].
  cbn in Hall. apply andb_prop in Hall as [Hc Hs].
  apply bool_decide_eq_true in Hc.
  destruct s as [|c' s'].
  - by exists "", c.
  - destruct (IH Hs ltac:(done)) as (front & x & -> & Hx).
    by exists (String c front), x.
Qed.

Lemma padValueWithZeros_digits (k : N) :
  Digits.all_digits (padValueWithZeros k) = true.
Proof.
  unfold padValueWithZeros.
  rewrite DigitsFacts.all_digits_app.
  destruct (DigitsFacts.pretty_N_digits k) as [-> _].
  rewrite andb_true_r. generalize (max_string_width - String.length (pretty k))%nat.
  intros n. induction n; cbn; auto.
Qed.

Lemma padValueWithZeros_inj (k k' : N) :
  padValueWithZeros k = padValueWithZeros k' → k = k'.
Proof.
  intros Heq.
  by rewrite <- (padValueWithZeros_value k), Heq, padValueWithZeros_value.
Qed.

Lemma padValueWithZeros_snoc (k : N) :
  ∃ front c, padValueWithZeros k = front +:+ String c ""
             ∧ is_Some (Digits.digit_of c).
Proof.
  apply all_digits_snoc; [apply padValueWithZeros_digits|].
  unfold padValueWithZeros.
  destruct (RealIOFacts.pretty_N_cons k) as (c & d & -> & _).
  intros Heq. apply (f_equal String.length) in Heq.
  rewrite StrFacts.length_app in Heq. cbn in Heq. lia.
Qed.

(** A text that ends in a character that is no digit, followed by digits,
    is split in one way only. *)
Lemma digit_suffix_inj (a b d1 d2 : string) (x y : ascii) :
  Digits.digit_of x = None → Digits.digit_of y = None →
  Digits.all_digits d1 = true → Digits.all_digits d2 = true →
  (a +:+ String x "") +:+ d1 = (b +:+ String y "") +:+ d2 →
  a = b ∧ x = y ∧ d1 = d2.
Proof.
  intros Hx Hy Hd1 Hd2.
  assert (∀ s z d, Digits.digit_of z = None →
                   Digits.all_digits ((s +:+ String z "") +:+ d) = false)
    as Hmixed.
  { intros s z d Hz. rewrite !DigitsFacts.all_digits_app. cbn.
    rewrite Hz. cbn. by rewrite andb_false_r. }
  revert b. induction a as [|c a IH]; intros [|c' b] Heq;
    repeat (rewrite StrFacts.app_nil_l in Heq
            || rewrite StrFacts.app_cons in Heq).
  - by injection Heq as -> ->.
  - injection Heq as -> Heq. rewrite Heq, Hmixed in Hd1 by done. done.
  - injection Heq as -> Heq. rewrite <- Heq, Hmixed in Hd2 by done. done.
  - injection Heq as -> Heq. destruct (IH _ Heq) as (-> & -> & ->). done.
Qed.

(** Restart files of two bodies, at two steps, coincide only for one name
    and one step. *)
Lemma restart_path_inj_step (folder : string) (k k' : N) (n n' : string) :
  restart_path k (folder +:+ "/" +:+ n +:+ "_rst_")
  = restart_path k' (folder +:+ "/" +:+ n' +:+ "_rst_") →
  n = n' ∧ k = k'.
Proof.
  unfold restart_path. rewrite !StrFacts.app_assoc. intros Heq.
  apply (inj (String.app folder)), (inj (String.app "/")) in Heq.
  rewrite <- !StrFacts.app_assoc in Heq. apply StrFacts.app_inj_suffix in Heq;
    [|done]. destruct Heq as [Heq _].
  change "_rst_" with ("_rst" +:+ String "_" "") in Heq.
  rewrite <- !(StrFacts.app_assoc _ "_rst") in Heq.
  apply digit_suffix_inj in Heq as (Hn & _ & Hk);
    [|done|done|apply padValueWithZeros_digits..].
  split; [by apply StrFacts.app_inj_r in Hn|by apply padValueWithZeros_inj].
Qed.

Lemma overall_path_inj_step (this : RestartIO.t) (k k' : N) :
  overall_path this k = overall_path this k' → k = k'.
Proof.
  unfold overall_path. intros Heq.
  apply (inj (String.app _)) in Heq. apply StrFacts.app_inj_r in Heq.
  by apply padValueWithZeros_inj.
Qed.

(** No restart file is a reload file. *)
Lemma restart_not_reload (k : N) (name prefix : string) :
  restart_path k name ≠ prefix +:+ "_rld.xml".
Proof.
  unfold restart_path. intros Heq.
  change "_rld.xml" with ("_rld" +:+ ".xml") in Heq.
  rewrite <- !StrFacts.app_assoc in Heq.
  apply StrFacts.app_inj_suffix in Heq as [Heq _]; [|done].
  destruct (padValueWithZeros_snoc k) as (front & c & Hpad & Hc).
  rewrite Hpad in Heq. change "_rld" with ("_rl" +:+ "d") in Heq.
  rewrite <- !StrFacts.app_assoc in Heq.
  apply StrFacts.app_inj_suffix in Heq as [_ Heq]; [|done].
  injection Heq as ->. by destruct Hc.
Qed.

Lemma overall_not_reload (this : RestartIO.t) (k : N) (prefix : string) :
  overall_path this k ≠ prefix +:+ "_rld.xml".
Proof.
  unfold overall_path. intros Heq.
  change "_rld.xml" with ("_rld" +:+ ".xml") in Heq.
  rewrite <- !StrFacts.app_assoc in Heq.
  by apply StrFacts.app_inj_suffix in Heq as [_ ?].
Qed.

End PathFacts.

(** ** Construction of a [RestartIO] *)

Section ConstructionMore.
Context {P : Type}.

Lemma bind_undefined {A B} (c : Proc P A) (f : A → Proc P B) w :
  c w = Undefined → (c ≫= f) w = Undefined.
Proof. intros H. unfold mbind, Proc_bind. by rewrite H. Qed.

Lemma getName_outcome (body : nat) (w : World P) :
  getName body w = Returns (name_in w body) w ∧ is_Some (heap w !! body)
  ∨ getName body w = Undefined ∧ heap w !! body = None.
Proof.
  unfold getName, deref, gets, name_in, mbind, Proc_bind. cbn.
  destruct (heap w !! body); cbn; eauto.
Qed.

Lemma transform_outcome {A B} (g : A → Proc P B) (h : A → B)
    (ok : A → Prop) (v : list A) (w : World P) :
  (∀ x, g x w = Returns (h x) w ∧ ok x ∨ g x w = Undefined ∧ ¬ ok x) →
  transform g v w = Returns (h <$> v) w ∧ Forall ok v
  ∨ transform g v w = Undefined ∧ ¬ Forall ok v.
Proof.
  intros Hg. induction v as [|x v IH].
  - left. by split.
  - cbn [transform]. destruct (Hg x) as [[Hx Hok]|[Hx Hok]].
    + rewrite (bind_returns (g x) _ w _ w Hx).
      destruct IH as [[Hrest Hv]|[Hrest Hv]].
      * left. rewrite (bind_returns (transform g v) _ w _ w Hrest).
        split; [done|]. by constructor.
      * right. unfold mbind, Proc_bind. rewrite Hrest.
        split; [done|]. intros Hall. apply Forall_cons in Hall as [_ ?].
        by apply Hv.
    + right. unfold mbind, Proc_bind. rewrite Hx.
      split; [done|]. intros Hall. apply Forall_cons in Hall as [? _].
      by apply Hok.
Qed.

(** Collecting the file names either returns them or meets a body that is
    no object. *)
Lemma names_outcome (f : string → string) (bodies : list nat) (w : World P) :
  transform (λ body, name ← getName body; mret (f name)) bodies w
  = Returns ((λ b, f (name_in w b)) <$> bodies) w
    ∧ valid_bodies bodies w
  ∨ transform (λ body, name ← getName body; mret (f name)) bodies w
    = Undefined
    ∧ ¬ valid_bodies bodies w.
Proof.
  destruct (transform_outcome
              (λ body, name ← getName body; mret (f name))
              (λ b, f (name_in w b)) (λ b, is_Some (heap w !! b)) bodies w)
    as [[Hrun Hall]|[Hrun Hall]].
  - intros b. destruct (getName_outcome b w) as [[Hb Hvalid]|[Hb Hnone]].
    + left. by rewrite (bind_returns (getName b) _ w _ w Hb).
    + right. unfold mbind, Proc_bind. rewrite Hb, Hnone.
      split; [done|]. by intros [? ?].
  - left. split; [done|]. intros b Hb.
    by apply (proj1 (Forall_forall _ _) Hall).
  - right. split; [done|]. intros Hvalid. apply Hall.
    apply Forall_forall. intros b Hb. by apply Hvalid.
Qed.

End ConstructionMore.



(** ** What [RestartIO::writeToFile] changes and what it leaves alone *)

Section WriteEffects.
Context {P : Type} {particle_xml : ParticleXml P} {width : FieldWidth}
  {file : SourceFile}.

Lemma restart_pairs_paths (w : World P) (b0 : SPHBody P) (bodies : list nat)
    (k : N) :
  (λ x, restart_path k x.1) <$> restart_pairs (restart_io w b0 bodies)
  = restart_file (restart_io w b0 bodies) w k <$> bodies.
Proof. by rewrite restart_pairs_io, <- list_fmap_compose. Qed.

(** The world after a write: the clock, the bodies and the output are as
    before, and so is every file that is not of this step. *)
Lemma writeToFile_frame (wc : World P) (b0 : SPHBody P) (bodies : list nat)
    (k : N) (w0 : World P) :
  valid_bodies bodies w0 →
  let this := restart_io wc b0 bodies in
  ∃ w1, RestartIO.writeToFile this k w0 = Returns tt w1
    ∧ heap w1 = heap w0 ∧ cout w1 = cout w0
    ∧ physical_time_ w1 = physical_time_ w0
    ∧ dom (files w1)
      = dom (files w0) ∪ {[ overall_path this k ]}
        ∪ list_to_set (restart_file this wc k <$> bodies)
    ∧ ∀ path, path ≠ overall_path this k →
        path ∉ restart_file this wc k <$> bodies →
        files w1 !! path = files w0 !! path.
Proof.
  intros Hvalid this.
  destruct (restart_pairs_bodies wc b0 bodies) as [Hsnd Hlen].
  fold this in Hsnd, Hlen.
  eexists. split; [by apply writeToFile_returns|].
  set (w0' := set_files _ w0).
  destruct (write_fold_heap k (restart_pairs this) w0') as (Hh & Hc & Ht).
  split; [done|]. split; [done|]. split; [done|]. split.
  - rewrite write_fold_dom by (by rewrite Hsnd).
    unfold this. rewrite restart_pairs_paths. cbn. rewrite dom_insert_L.
    set_solver.
  - intros path Hoverall Hbodies. rewrite write_fold_other.
    + cbn. by rewrite lookup_insert_ne.
    + unfold this. by rewrite restart_pairs_paths.
Qed.

End WriteEffects.

(** X2. [RestartIO::writeToFile(k)], on bodies that are objects, returns.
    It changes neither the bodies nor the clock, prints nothing, and the
    files after it are those before it together with the overall file of
    step [k] and the restart file of step [k] of each body; every other
    file keeps its content. *)
Theorem restart_write_effects {P : Type} {particle_xml : ParticleXml P}
    {width : FieldWidth} {file : SourceFile}
    (bodies : list nat) (k : N) (this : RestartIO.t) (wc wc' w0 : World P) :
  RestartIO.new bodies wc = Returns this wc' →
  valid_bodies bodies w0 →
  ∃ w1, RestartIO.writeToFile this k w0 = Returns tt w1
    ∧ heap w1 = heap w0 ∧ cout w1 = cout w0
    ∧ physical_time_ w1 = physical_time_ w0
    ∧ dom (files w1)
      = dom (files w0) ∪ {[ overall_path this k ]}
        ∪ list_to_set (restart_file this wc k <$> bodies)
    ∧ ∀ path, path ≠ overall_path this k →
        path ∉ restart_file this wc k <$> bodies →
        files w1 !! path = files w0 !! path.
Proof.
  intros Hnew Hvalid.
  apply restart_new_returns in Hnew
    as (-> & _ & b0 & o0 & rest & _ & _ & ->).
  by apply writeToFile_frame.
Qed.

Lemma restart_write_effects_witness :
  let this := restart_io Scenario.two_bodies (Scenario.body "A" "<a/>")
                [1%nat; 2%nat] in
  ∃ w1, RestartIO.writeToFile (particle_xml := Scenario.xml_particles)
          (width := Scenario.width6) this 5 Scenario.two_bodies
        = Returns tt w1
    ∧ heap w1 = heap Scenario.two_bodies
    ∧ cout w1 = cout Scenario.two_bodies
    ∧ physical_time_ w1 = physical_time_ Scenario.two_bodies
    ∧ dom (files w1)
      = dom (files Scenario.two_bodies)
        ∪ {[ overall_path (width := Scenario.width6) this 5 ]}
        ∪ list_to_set
            (restart_file (width := Scenario.width6) this
               Scenario.two_bodies 5 <$> [1%nat; 2%nat])
    ∧ ∀ path, path ≠ overall_path (width := Scenario.width6) this 5 →
        path ∉ restart_file (width := Scenario.width6) this
                 Scenario.two_bodies 5 <$> [1%nat; 2%nat] →
        files w1 !! path = files Scenario.two_bodies !! path.
Proof.
  apply (restart_write_effects (particle_xml := Scenario.xml_particles)
           (file := Scenario.source) [1%nat; 2%nat] 5 _
           Scenario.two_bodies Scenario.two_bodies Scenario.two_bodies).
  - vm_compute. reflexivity.
  - apply two_bodies_valid.
Defined.

(** X3. A write at step [k] leaves the checkpoint of every other step as it
    is: the overall file and the restart files of a step [k'] other than
    [k], of whatever body, keep their content. It leaves every reload file
    as it is, too: no path that ends in [_rld.xml] is written. *)
Theorem restart_write_other_steps {P : Type} {particle_xml : ParticleXml P}
    {width : FieldWidth} {file : SourceFile}
    (bodies : list nat) (k k' : N) (this : RestartIO.t)
    (wc wc' w0 : World P) :
  RestartIO.new bodies wc = Returns this wc' →
  valid_bodies bodies w0 →
  ∃ w1, RestartIO.writeToFile this k w0 = Returns tt w1
    ∧ (k' ≠ k →
       files w1 !! overall_path this k' = files w0 !! overall_path this k'
       ∧ ∀ b, files w1 !! restart_file this wc k' b
              = files w0 !! restart_file this wc k' b)
    ∧ ∀ prefix, files w1 !! (prefix +:+ "_rld.xml")
                = files w0 !! (prefix +:+ "_rld.xml").
Proof.
  intros Hnew Hvalid.
  apply restart_new_returns in Hnew
    as (-> & _ & b0 & o0 & rest & _ & _ & ->).
  destruct (writeToFile_frame wc o0 bodies k w0 Hvalid)
    as (w1 & Hwrite & _ & _ & _ & _ & Hframe).
  exists w1. split; [done|]. split.
  - intros Hk. split.
    + apply Hframe.
      * by intros ?%overall_path_inj_step.
      * intros Hin. apply list_elem_of_fmap in Hin as (b & Heq & _).
        by apply overall_not_restart in Heq.
    + intros b. apply Hframe.
      * intros Heq. symmetry in Heq. by apply overall_not_restart in Heq.
      * intros Hin. apply list_elem_of_fmap in Hin as (c & Heq & _).
        by apply restart_path_inj_step in Heq as [_ ?].
  - intros prefix. apply Hframe.
    + intros Heq. symmetry in Heq. by apply overall_not_reload in Heq.
    + intros Hin. apply list_elem_of_fmap in Hin as (c & Heq & _).
      symmetry in Heq. by apply restart_not_reload in Heq.
Qed.

Lemma restart_write_other_steps_witness :
  let this := restart_io Scenario.two_bodies (Scenario.body "A" "<a/>")
                [1%nat; 2%nat] in
  ∃ w1, RestartIO.writeToFile (particle_xml := Scenario.xml_particles)
          (width := Scenario.width6) this 5 Scenario.two_bodies
        = Returns tt w1
    ∧ files w1 !! "./restart/Restart_time_000004.dat" = None
    ∧ files w1 !! "./restart/B_rst_000004.xml" = None
    ∧ files w1 !! "./reload/A_rld.xml" = None.
Proof.
  intros this.
  destruct (restart_write_other_steps
              (particle_xml := Scenario.xml_particles)
              (width := Scenario.width6) (file := Scenario.source)
              [1%nat; 2%nat] 5 4 this
              Scenario.two_bodies Scenario.two_bodies Scenario.two_bodies)
    as (w1 & Hwrite & Hsteps & Hreload).
  - vm_compute. reflexivity.
  - apply two_bodies_valid.
  - destruct Hsteps as [Htime Hbodies]; [done|].
    exists w1. split; [done|]. split; [apply Htime|].
    split; [apply (Hbodies 2%nat)|apply (Hreload "./reload/A")].
Defined.

(** ** Writing a checkpoint twice *)

Section WriteTwice.
Context {P : Type} {particle_xml : ParticleXml P} {width : FieldWidth}
  {file : SourceFile}.

(** What the loop leaves in a file that it writes does not depend on the
    files it started from. *)
Lemma write_fold_indep (k : N) (xs : list (string * nat)) (w w' : World P)
    (path : string) :
  heap w = heap w' → valid_bodies xs.*2 w →
  path ∈ (λ x, restart_path k x.1) <$> xs →
  files (foldl (write_step k) w xs) !! path
  = files (foldl (write_step k) w' xs) !! path.
Proof.
  intros Hheap. induction xs as [|x xs IH] using rev_ind; intros Hvalid Hpath.
  { by apply elem_of_nil in Hpath. }
  rewrite !foldl_snoc. unfold write_step at 1 3.
  destruct (write_fold_heap k xs w) as (-> & _ & _).
  destruct (write_fold_heap k xs w') as (-> & _ & _).
  rewrite <- Hheap.
  destruct (Hvalid x.2) as [o ->].
  { rewrite fmap_app, elem_of_app. right. by left. }
  cbn. destruct (decide (restart_path k x.1 = path)) as [<-|Hne].
  - by rewrite !lookup_insert_eq.
  - rewrite !lookup_insert_ne by done. apply IH.
    + intros b Hb. apply Hvalid. rewrite fmap_app, elem_of_app. by left.
    + rewrite fmap_app in Hpath. apply elem_of_app in Hpath as [?|Hpath];
        [done|]. apply list_elem_of_singleton in Hpath. by subst.
Qed.

End WriteTwice.

(** X4. Writing the checkpoint of a step twice in a row, with the bodies
    and the clock unchanged in between, leaves the files exactly as the
    first write left them, also when several bodies share a name. *)
Theorem restart_write_idempotent {P : Type} {particle_xml : ParticleXml P}
    {width : FieldWidth} {file : SourceFile}
    (bodies : list nat) (k : N) (this : RestartIO.t) (wc wc' w0 : World P) :
  RestartIO.new bodies wc = Returns this wc' →
  valid_bodies bodies w0 →
  ∃ w1 w2, RestartIO.writeToFile this k w0 = Returns tt w1
    ∧ RestartIO.writeToFile this k w1 = Returns tt w2
    ∧ files w2 = files w1.
Proof.
  intros Hnew Hvalid.
  apply restart_new_returns in Hnew
    as (-> & _ & b0 & o0 & rest & _ & _ & ->).
  set (this := restart_io wc o0 bodies).
  destruct (restart_pairs_bodies wc o0 bodies) as [Hsnd Hlen].
  fold this in Hsnd, Hlen.
  set (w0' := set_files
                <[overall_path this k := time_line (physical_time_ w0)]> w0).
  set (w1 := foldl (write_step k) w0' (restart_pairs this)).
  destruct (write_fold_heap k (restart_pairs this) w0') as (Hh & _ & Ht).
  fold w1 in Hh, Ht. change (heap w0') with (heap w0) in Hh.
  change (physical_time_ w0') with (physical_time_ w0) in Ht.
  set (w1' := set_files
                <[overall_path this k := time_line (physical_time_ w1)]> w1).
  exists w1, (foldl (write_step k) w1' (restart_pairs this)).
  split; [by apply writeToFile_returns|].
  split; [apply writeToFile_returns; [done|]; intros b Hb; rewrite Hh; auto|].
  apply map_eq. intros path.
  destruct (decide (path ∈ (λ x, restart_path k x.1) <$> restart_pairs this))
    as [Hin|Hout].
  - apply write_fold_indep; [exact Hh| |done].
    rewrite Hsnd. intros b Hb. change (heap w1') with (heap w1).
    rewrite Hh. auto.
  - rewrite write_fold_other by done.
    change (files w1') with
      (<[overall_path this k := time_line (physical_time_ w1)]> (files w1)).
    destruct (decide (overall_path this k = path)) as [<-|Hne].
    + rewrite lookup_insert_eq, Ht. symmetry. apply writeToFile_overall.
    + by rewrite lookup_insert_ne.
Qed.

Lemma valid_bodies_two {P : Type} (a b : nat) (w : World P) :
  is_Some (heap w !! a) → is_Some (heap w !! b) → valid_bodies [a; b] w.
Proof.
  intros Ha Hb c Hc. apply elem_of_cons in Hc as [->|Hc];
    [|apply list_elem_of_singleton in Hc as ->]; done.
Qed.

(** Two bodies that share a name, written twice. *)
Lemma restart_write_idempotent_witness :
  let this := restart_io Scenario.same_name (Scenario.body "A" "<a/>")
                [1%nat; 2%nat] in
  ∃ w1 w2, RestartIO.writeToFile (particle_xml := Scenario.xml_particles)
             (width := Scenario.width6) this 5 Scenario.same_name
           = Returns tt w1
    ∧ RestartIO.writeToFile (particle_xml := Scenario.xml_particles)
        (width := Scenario.width6) this 5 w1
      = Returns tt w2
    ∧ files w2 = files w1.
Proof.
  apply (restart_write_idempotent (particle_xml := Scenario.xml_particles)
           (file := Scenario.source) [1%nat; 2%nat] 5 _
           Scenario.same_name Scenario.same_name Scenario.same_name).
  - vm_compute. reflexivity.
  - apply valid_bodies_two; vm_compute; eauto.
Defined.

(** ** Bodies that share a name *)

Section SharedNames.
Context {P : Type} {particle_xml : ParticleXml P} {width : FieldWidth}
  {file : SourceFile}.


(** The loop of [readFromFile] leaves each body its name and its system,
    and the bodies that are not in the vector as they are. *)
Lemma restore_fold_identity (k : N) (xs : list (string * nat)) (w : World P)
    (c : nat) :
  (c ∉ xs.*2 → heap (foldl (restore_step k) w xs) !! c = heap w !! c)
  ∧ ∀ o, heap w !! c = Some o →
      ∃ o', heap (foldl (restore_step k) w xs) !! c = Some o'
        ∧ body_name_ o' = body_name_ o ∧ sph_system o' = sph_system o.
Proof.
  induction xs as [|x xs [IHout IHin]] using rev_ind; [by eauto|].
  rewrite foldl_snoc. unfold restore_step at 1 3.
  destruct (heap (foldl (restore_step k) w xs) !! x.2) as [ox|] eqn:Hx,
    (files (foldl (restore_step k) w xs) !! restart_path k x.1) as [xml|];
    cbn.
  - split.
    + intros Hc. rewrite fmap_app, not_elem_of_app in Hc.
      destruct Hc as [Hxs Hcx]. rewrite lookup_insert_ne; [auto|].
      set_solver.
    + intros o Ho. destruct (IHin o Ho) as (o' & Ho' & Hname & Hsys).
      destruct (decide (x.2 = c)) as [Heq|Hne].
      * rewrite Heq, lookup_insert_eq. rewrite Heq, Ho' in Hx.
        injection Hx as <-. eauto.
      * rewrite lookup_insert_ne by done. eauto.
  - split; [|done]. intros Hc. apply IHout.
    rewrite fmap_app, not_elem_of_app in Hc. by destruct Hc.
  - split; [|done]. intros Hc. apply IHout.
    rewrite fmap_app, not_elem_of_app in Hc. by destruct Hc.
  - split; [|done]. intros Hc. apply IHout.
    rewrite fmap_app, not_elem_of_app in Hc. by destruct Hc.
Qed.

End SharedNames.



(** ** What [RestartIO::readFromFile] changes and what it leaves alone *)

(** X6. When the restart file of step [k] of every body is there,
    [readFromFile(k)] returns after calling the reader of each body once,
    in the order of the vector. It changes no file, prints nothing and
    leaves the clock alone; the bodies outside the vector are as before,
    and every body keeps its name and its system. *)
Theorem restart_read_effects {P : Type} {particle_xml : ParticleXml P}
    {width : FieldWidth} {file : SourceFile}
    (bodies : list nat) (k : N) (this : RestartIO.t) (wc wc' w : World P) :
  RestartIO.new bodies wc = Returns this wc' →
  valid_bodies bodies w →
  (∀ b, b ∈ bodies → is_Some (files w !! restart_file this wc k b)) →
  ∃ w', RestartIO.readFromFile this k w = Returns tt w'
    ∧ files w' = files w ∧ cout w' = cout w
    ∧ physical_time_ w' = physical_time_ w
    ∧ calls w'
      = calls w ++ ((λ b, ReadRestart b (restart_file this wc k b))
                    <$> bodies)
    ∧ (∀ c, c ∉ bodies → heap w' !! c = heap w !! c)
    ∧ ∀ c o, heap w !! c = Some o →
        ∃ o', heap w' !! c = Some o'
          ∧ body_name_ o' = body_name_ o ∧ sph_system o' = sph_system o.
Proof.
  intros Hnew Hvalid Hfiles.
  apply restart_new_returns in Hnew
    as (-> & _ & b0 & o0 & rest & _ & _ & ->).
  set (this := restart_io wc o0 bodies) in *.
  destruct (restart_pairs_bodies wc o0 bodies) as [Hsnd Hlen].
  fold this in Hsnd, Hlen.
  assert (restart_pairs this
          = (λ c, (restart_folder this +:+ "/" +:+ name_in wc c +:+ "_rst_",
                   c)) <$> bodies) as Hpairs by apply restart_pairs_io.
  assert (∀ x, x ∈ restart_pairs this →
               is_Some (files w !! restart_path k x.1)) as Hexist.
  { intros x Hx. rewrite Hpairs in Hx.
    apply list_elem_of_fmap in Hx as (c & -> & Hc). by apply Hfiles. }
  exists (foldl (restore_step k) w (restart_pairs this)).
  split.
  { rewrite readFromFile_loop by done. fold (restart_pairs this).
    apply restore_loop_returns; [by rewrite Hsnd|done]. }
  destruct (restore_fold_files k (restart_pairs this) w)
    as (Hf & Hc & Ht & _).
  split; [done|]. split; [done|]. split; [done|]. split.
  { rewrite restore_fold_calls; [|by rewrite Hsnd|done].
    by rewrite Hpairs, <- list_fmap_compose. }
  split.
  - intros c Hc'. apply restore_fold_identity. by rewrite Hsnd.
  - intros c o Ho. by apply restore_fold_identity.
Qed.

(** Reading the body [A] back; the body [B] stands outside the vector. *)
Lemma restart_read_effects_witness :
  let this := restart_io Scenario.half_written (Scenario.body "A" "<a/>")
                [1%nat] in
  ∃ w', RestartIO.readFromFile (particle_xml := Scenario.xml_particles)
          (width := Scenario.width6) (file := Scenario.source)
          this 5 Scenario.half_written
        = Returns tt w'
    ∧ files w' = files Scenario.half_written
    ∧ cout w' = cout Scenario.half_written
    ∧ physical_time_ w' = physical_time_ Scenario.half_written
    ∧ calls w' = [ReadRestart 1 "./restart/A_rst_000005.xml"]
    ∧ heap w' !! 2%nat = Some (Scenario.body "B" "<b/>").
Proof.
  intros this.
  destruct (restart_read_effects (particle_xml := Scenario.xml_particles)
              (width := Scenario.width6) (file := Scenario.source)
              [1%nat] 5 this
              Scenario.half_written Scenario.half_written
              Scenario.half_written)
    as (w' & Hread & Hf & Hc & Ht & Hcalls & Hout & _).
  - vm_compute. reflexivity.
  - intros b Hb. apply list_elem_of_singleton in Hb as ->.
    vm_compute. eauto.
  - intros b Hb. apply list_elem_of_singleton in Hb as ->.
    vm_compute. eauto.
  - exists w'. repeat (split; [done|]).
    rewrite Hout; [reflexivity|]. by intros ?%list_elem_of_singleton.
Defined.

(** ** The time that is read back *)

Module RealIOMore.
Import RealIO.

Lemma pow10_pos (p : nat) : Zpos (pow10 p) = 10 ^ Z.of_nat p.
Proof.
  unfold pow10. rewrite Z2Pos.id; [done|]. apply Z.pow_pos_nonneg; lia.
Qed.

(** A fraction that is a whole number of units rounds to that number. *)
Lemma round_half_even_exact (a : N) (den : positive) :
  round_half_even (a * Npos den) den = a.
Proof.
  unfold round_half_even.
  rewrite N.div_mul, N.Div0.mod_mul by done.
  by destruct (N.ltb_spec (2 * 0) (Npos den)); [|lia].
Qed.

Lemma scaled_grid (p : nat) (t : Q) (m : Z) :
  (t == m # pow10 p)%Q → scaled p t = Z.abs_N m.
Proof.
  destruct t as [n d]. unfold Qeq, scaled. cbn [Qnum Qden].
  rewrite pow10_pos. intros Heq.
  replace (Z.abs_N n * 10 ^ N.of_nat p)%N with (Z.abs_N m * Npos d)%N.
  - apply round_half_even_exact.
  - apply N2Z.inj. rewrite !N2Z.inj_mul, N2Z.inj_pow, !N2Z.inj_abs_N, nat_N_Z.
    change (Z.of_N 10) with 10. change (Z.of_N (N.pos d)) with (Z.pos d).
    rewrite <- (Z.abs_eq (10 ^ Z.of_nat p)) by (apply Z.pow_nonneg; lia).
    rewrite <- (Z.abs_eq (Z.pos d)) at 1 by lia.
    rewrite <- !Z.abs_mul. by rewrite Heq.
Qed.

(** A time with at most [p] decimals is written and read back exactly. *)
Lemma round_fixed_grid (p : nat) (t : Q) (m : Z) :
  (t == m # pow10 p)%Q → (round_fixed p t == t)%Q.
Proof.
  intros Heq. unfold round_fixed. rewrite (scaled_grid p t m Heq).
  rewrite N2Z.inj_abs_N.
  destruct t as [n d]. unfold Qeq in *. cbn [Qnum Qden] in *.
  assert (0 < Z.pos (pow10 p)) by lia.
  destruct (Z.ltb_spec n 0); cbn [Qnum Qden]; nia.
Qed.

(** The rounded time prints as the time does. *)
Lemma print_fixed_round (p : nat) (t : Q) :
  (0 <= t)%Q → print_fixed p (round_fixed p t) = print_fixed p t.
Proof.
  intros Hpos. unfold print_fixed.
  assert ((Qnum t <? 0) = false) as Hsign.
  { apply Z.ltb_ge. destruct t as [n d]. unfold Qle in Hpos. cbn in *. lia. }
  assert (scaled p (round_fixed p t) = scaled p t) as ->.
  { rewrite (scaled_grid p _ (Z.of_N (scaled p t))).
    - apply Zabs2N.id.
    - unfold round_fixed. by rewrite Hsign. }
  unfold round_fixed. rewrite Hsign. cbn [Qnum].
  by destruct (Z.ltb_spec (Z.of_N (scaled p t)) 0); [lia|].
Qed.

End RealIOMore.



(** X8. A checkpoint time survives the restart: a time with at most 9
    decimals is read back as it was written, and, for a time that is not
    negative, writing the time that was read back gives the same line in
    the overall file as the first write did. *)
Theorem restart_time_stable {P : Type} {particle_xml : ParticleXml P}
    {width : FieldWidth} {file : SourceFile}
    (bodies : list nat) (k : N) (this : RestartIO.t) (wc wc' w0 : World P) :
  RestartIO.new bodies wc = Returns this wc' →
  valid_bodies bodies w0 →
  ∃ w1 r w1', RestartIO.writeToFile this k w0 = Returns tt w1
    ∧ RestartIO.readRestartTime this k w1 = Returns r w1'
    ∧ ((∃ m : Z, physical_time_ w0 == m # 1000000000)%Q →
       (r == physical_time_ w0)%Q)
    ∧ ((0 <= physical_time_ w0)%Q →
       time_line r = time_line (physical_time_ w0)).
Proof.
  intros Hnew Hvalid.
  apply restart_new_returns in Hnew
    as (-> & _ & b0 & o0 & rest & _ & _ & ->).
  destruct (restart_pairs_bodies wc o0 bodies) as [Hsnd Hlen].
  eexists _, _, _. split; [by apply writeToFile_returns|].
  split.
  { erewrite readRestartTime_returns by apply writeToFile_overall.
    rewrite parse_time_line. cbn [from_option id]. reflexivity. }
  split.
  - intros [m Hm]. by apply (RealIOMore.round_fixed_grid 9 _ m).
  - intros Hpos. unfold time_line.
    by rewrite RealIOMore.print_fixed_round.
Qed.

Lemma restart_time_stable_witness :
  let this := restart_io Scenario.two_bodies (Scenario.body "A" "<a/>")
                [1%nat; 2%nat] in
  ∃ w1 r w1',
    RestartIO.writeToFile (particle_xml := Scenario.xml_particles)
      (width := Scenario.width6) this 5 Scenario.two_bodies
    = Returns tt w1
    ∧ RestartIO.readRestartTime (width := Scenario.width6)
        (file := Scenario.source) this 5 w1
      = Returns r w1'
    ∧ (r == 3 # 2)%Q ∧ time_line r = time_line (3 # 2).
Proof.
  intros this.
  destruct (restart_time_stable (particle_xml := Scenario.xml_particles)
              (width := Scenario.width6) (file := Scenario.source)
              [1%nat; 2%nat] 5 this
              Scenario.two_bodies Scenario.two_bodies Scenario.two_bodies)
    as (w1 & r & w1' & Hwrite & Hread & Hexact & Hline).
  - vm_compute. reflexivity.
  - apply two_bodies_valid.
  - exists w1, r, w1'. split; [done|]. split; [done|]. split.
    + apply Hexact. exists 1500000000. reflexivity.
    + apply Hline. vm_compute. discriminate.
Defined.

(** ** What the reload files hold and where they go *)

Section ReloadMore.
Context {P : Type} {particle_xml : ParticleXml P} {file : SourceFile}.

Lemma reload_pairs_io (w : World P) (o0 : SPHBody P) (bodies : list nat) :
  reload_pairs (reload_io w o0 bodies)
  = (λ b, (reload_file (reload_io w o0 bodies) w b, b)) <$> bodies.
Proof. unfold reload_pairs. cbn. by rewrite zip_fmap_diag. Qed.

Lemma reload_pairs_bodies (w : World P) (o0 : SPHBody P)
    (bodies : list nat) :
  (reload_pairs (reload_io w o0 bodies)).*2 = bodies
  ∧ (reload_pairs (reload_io w o0 bodies)).*1
    = ReloadParticleIO.file_names_ (reload_io w o0 bodies)
  ∧ length (ReloadParticleIO.file_names_ (reload_io w o0 bodies))
    = length (ReloadParticleIO.bodies_ (reload_io w o0 bodies)).
Proof.
  assert (length (ReloadParticleIO.file_names_ (reload_io w o0 bodies))
          = length (ReloadParticleIO.bodies_ (reload_io w o0 bodies)))
    as Hlen by (cbn; by rewrite length_fmap).
  unfold reload_pairs. rewrite snd_zip, fst_zip by lia. done.
Qed.

Lemma reload_new_returns (bodies : list nat) (w w' : World P)
    (this : ReloadParticleIO.t) :
  ReloadParticleIO.new bodies w = Returns this w' →
  w' = w ∧ valid_bodies bodies w
  ∧ ∃ b0 o0 rest, bodies = b0 :: rest ∧ heap w !! b0 = Some o0
                  ∧ this = reload_io w o0 bodies.
Proof.
  intros Hrun. destruct bodies as [|b0 rest]; [done|].
  assert (valid_bodies (b0 :: rest) w) as Hvalid.
  { revert Hrun. unfold ReloadParticleIO.new.
    rewrite (bind_returns (at_index (b0 :: rest) 0) _ w b0 w eq_refl).
    destruct (getSPHSystem b0 w) as [s w1| |] eqn:Hsys;
      [|by rewrite (bind_exits _ _ _ _ _ Hsys)
       |by rewrite (bind_undefined _ _ _ Hsys)].
    apply getSPHSystem_returns in Hsys as Hb0. destruct Hb0 as [o0 Hb0].
    rewrite (getSPHSystem_total b0 o0 w Hb0) in Hsys.
    injection Hsys as <- <-.
    rewrite (bind_returns _ _ w _ w (getSPHSystem_total b0 o0 w Hb0)).
    cbv zeta.
    destruct (names_outcome
                (λ name, IOEnvironment.reload_folder_
                           (BaseIO.io_environment_
                              (BaseIO.new (sph_system o0)))
                         +:+ "/" +:+ name +:+ "_rld.xml")
                (b0 :: rest) w) as [[_ Hv]|[Hrun _]]; [done|].
    by rewrite (bind_undefined _ _ _ Hrun). }
  destruct (Hvalid b0) as [o0 Hb0]; [by left|].
  rewrite (reload_new_total b0 o0 rest w Hvalid Hb0) in Hrun.
  injection Hrun as <- <-. eauto 10.
Qed.

Lemma reload_write_step_frame (w : World P) (x : string * nat) :
  heap (reload_write_step w x) = heap w
  ∧ cout (reload_write_step w x) = cout w
  ∧ physical_time_ (reload_write_step w x) = physical_time_ w
  ∧ ∀ path, path ≠ x.1 →
      files (reload_write_step w x) !! path = files w !! path.
Proof.
  unfold reload_write_step. destruct (heap w !! x.2); [|done]. cbn.
  repeat split. intros path Hpath. by rewrite lookup_insert_ne.
Qed.

Lemma reload_write_fold_frame (xs : list (string * nat)) (w : World P) :
  heap (foldl reload_write_step w xs) = heap w
  ∧ cout (foldl reload_write_step w xs) = cout w
  ∧ physical_time_ (foldl reload_write_step w xs) = physical_time_ w
  ∧ ∀ path, path ∉ xs.*1 →
      files (foldl reload_write_step w xs) !! path = files w !! path.
Proof.
  induction xs as [|x xs IH] using rev_ind; [done|].
  rewrite foldl_snoc. destruct IH as (Hh & Hc & Ht & Hf).
  destruct (reload_write_step_frame (foldl reload_write_step w xs) x)
    as (-> & -> & -> & Hf').
  repeat split; try done. intros path Hpath.
  rewrite fmap_app, not_elem_of_app in Hpath. destruct Hpath as [Hxs Hx].
  rewrite Hf' by set_solver. by apply Hf.
Qed.


Lemma reload_read_step_frame (w : World P) (x : string * nat) :
  files (reload_read_step w x) = files w
  ∧ cout (reload_read_step w x) = cout w
  ∧ physical_time_ (reload_read_step w x) = physical_time_ w
  ∧ (∀ b, b ≠ x.2 → heap (reload_read_step w x) !! b = heap w !! b)
  ∧ ∀ b o, heap w !! b = Some o →
      ∃ o', heap (reload_read_step w x) !! b = Some o'
        ∧ body_name_ o' = body_name_ o ∧ sph_system o' = sph_system o.
Proof.
  unfold reload_read_step.
  destruct (heap w !! x.2) as [o|] eqn:Ho, (files w !! x.1) as [xml|];
    cbn; try (repeat split; eauto; done).
  repeat split.
  - intros b Hb. by rewrite lookup_insert_ne.
  - intros b o' Hb. destruct (decide (x.2 = b)) as [<-|Hne].
    + rewrite lookup_insert_eq. rewrite Ho in Hb. injection Hb as <-. eauto.
    + rewrite lookup_insert_ne by done. eauto.
Qed.

Lemma reload_read_fold_frame (xs : list (string * nat)) (w : World P) :
  files (foldl reload_read_step w xs) = files w
  ∧ cout (foldl reload_read_step w xs) = cout w
  ∧ physical_time_ (foldl reload_read_step w xs) = physical_time_ w
  ∧ (∀ b, b ∉ xs.*2 → heap (foldl reload_read_step w xs) !! b = heap w !! b)
  ∧ ∀ b o, heap w !! b = Some o →
      ∃ o', heap (foldl reload_read_step w xs) !! b = Some o'
        ∧ body_name_ o' = body_name_ o ∧ sph_system o' = sph_system o.
Proof.
  induction xs as [|x xs IH] using rev_ind; [by eauto 10|].
  rewrite foldl_snoc. destruct IH as (Hf & Hc & Ht & Hout & Hkeep).
  destruct (reload_read_step_frame (foldl reload_read_step w xs) x)
    as (-> & -> & -> & Hout' & Hkeep').
  repeat split; try done.
  - intros b Hb. rewrite fmap_app, not_elem_of_app in Hb.
    destruct Hb as [Hxs Hx]. rewrite Hout' by set_solver. by apply Hout.
  - intros b o Hb. destruct (Hkeep b o Hb) as (o1 & Ho1 & <- & <-).
    by apply Hkeep'.
Qed.


Lemma reload_read_one_missing (x : string * nat) (w : World P) :
  files w !! x.1 = None →
  reload_read_one x w = Exits 1 (diagnosed x.1 148 w).
Proof.
  intros Hnone. unfold reload_read_one, fs_exists, gets.
  unfold mbind, Proc_bind, mret, Proc_ret. cbn.
  rewrite bool_decide_eq_false_2; [done|]. rewrite Hnone. by intros [? ?].
Qed.

(** A missing file ends the loop after the bodies in front of it. *)
Lemma reload_read_loop_exits (pre post : list (string * nat))
    (x : string * nat) (w : World P) :
  valid_bodies pre.*2 w →
  (∀ y, y ∈ pre → is_Some (files w !! y.1)) →
  files w !! x.1 = None →
  foreach reload_read_one (pre ++ x :: post) w
  = Exits 1 (diagnosed x.1 148 (foldl reload_read_step w pre)).
Proof.
  intros Hvalid Hfiles Hmissing. rewrite foreach_app.
  rewrite (bind_returns _ _ _ _ _
             (reload_read_returns pre w Hvalid Hfiles)).
  cbn [foreach]. apply bind_exits, reload_read_one_missing.
  by destruct (reload_read_fold_frame pre w) as (-> & _).
Qed.

End ReloadMore.




(** X10. [ReloadParticleIO::readFromFile], when the reload file of the body
    at position [j] is the first that is missing, ends the process with
    status 1. The output then holds the announcement and the diagnostic,
    which names that file and line 148; the bodies in front of position [j]
    have been read from their files, the others have not been touched, and
    no file has changed. *)
Theorem reload_read_missing {P : Type} {particle_xml : ParticleXml P}
    {file : SourceFile} (bodies : list nat) (k : N)
    (this : ReloadParticleIO.t) (wc wc' w : World P) (j : nat) (b : nat) :
  ReloadParticleIO.new bodies wc = Returns this wc' →
  valid_bodies bodies w →
  bodies !! j = Some b →
  files w !! reload_file this wc b = None →
  (∀ i a, (i < j)%nat → bodies !! i = Some a →
          is_Some (files w !! reload_file this wc a)) →
  ∃ w', ReloadParticleIO.readFromFile this k w = Exits 1 w'
    ∧ cout w'
      = cout (diagnosed (reload_file this wc b) 148
                (set_cout (λ out, out +:+ nl
                   +:+ " Reloading particles from files." +:+ nl) w))
    ∧ names_path (cout w') (reload_file this wc b)
    ∧ files w' = files w
    ∧ calls w'
      = calls w ++ ((λ a, ReadReload a (reload_file this wc a))
                    <$> take j bodies)
    ∧ ∀ c, c ∉ take j bodies → heap w' !! c = heap w !! c.
Proof.
  intros Hnew Hvalid Hj Hmissing Hbefore.
  apply reload_new_returns in Hnew
    as (-> & _ & b0 & o0 & rest & _ & _ & ->).
  set (this := reload_io wc o0 bodies) in *.
  destruct (reload_pairs_bodies wc o0 bodies) as (Hsnd & Hfst & Hlen).
  fold this in Hsnd, Hfst, Hlen.
  assert (reload_pairs this = (λ a, (reload_file this wc a, a)) <$> bodies)
    as Hpairs by apply reload_pairs_io.
  set (w0 := set_cout (λ out, out +:+ nl
               +:+ " Reloading particles from files." +:+ nl) w).
  set (pre := (λ a, (reload_file this wc a, a)) <$> take j bodies).
  assert (pre.*2 = take j bodies) as Hpre.
  { unfold pre. rewrite <- list_fmap_compose. apply list_fmap_id. }
  assert (valid_bodies pre.*2 w0) as Hvalid'.
  { rewrite Hpre. intros a Ha. apply Hvalid.
    apply elem_of_take in Ha as (i & Ha & _).
    by eapply list_elem_of_lookup_2. }
  assert (∀ y, y ∈ pre → is_Some (files w0 !! y.1)) as Hfiles.
  { intros y Hy. apply list_elem_of_fmap in Hy as (a & -> & Ha).
    apply elem_of_take in Ha as (i & Ha & Hi). by apply (Hbefore i). }
  exists (diagnosed (reload_file this wc b) 148
            (foldl reload_read_step w0 pre)).
  split.
  { rewrite reload_readFromFile_loop by done. fold w0.
    rewrite Hpairs, <- (take_drop_middle bodies j b Hj), fmap_app, fmap_cons.
    by apply (reload_read_loop_exits pre _ (reload_file this wc b, b) w0). }
  destruct (reload_read_fold_frame pre w0) as (Hf & Hc & _ & Hout & _).
  destruct (reload_read_fold pre w0 Hvalid' Hfiles) as (_ & _ & Hcalls).
  split; [by apply diagnosed_cout|].
  split; [apply diagnosed_names_path|].
  split; [exact Hf|]. split.
  - cbn. rewrite Hcalls. unfold pre. by rewrite <- list_fmap_compose.
  - intros c Hc'. cbn. rewrite Hout; [done|]. by rewrite Hpre.
Qed.

(** The file of [A] is in place and the file of [B] is not. *)
Lemma reload_read_missing_witness :
  let io := reload_io Scenario.two_bodies (Scenario.body "A" "<a/>")
              [1%nat; 2%nat] in
  let w := set_files (insert "./reload/A_rld.xml" "<a0/>")
             Scenario.two_bodies in
  ∃ w', ReloadParticleIO.readFromFile
          (particle_xml := Scenario.xml_particles)
          (file := Scenario.source) io 0 w
        = Exits 1 w'
    ∧ names_path (cout w') "./reload/B_rld.xml"
    ∧ calls w' = [ReadReload 1 "./reload/A_rld.xml"]
    ∧ heap w' !! 2%nat = Some (Scenario.body "B" "<b/>").
Proof.
  intros io w.
  destruct (reload_read_missing (particle_xml := Scenario.xml_particles)
              (file := Scenario.source) [1%nat; 2%nat] 0 io
              Scenario.two_bodies Scenario.two_bodies w 1 2%nat)
    as (w' & Hread & _ & Hnames & _ & Hcalls & Hout).
  - vm_compute. reflexivity.
  - intros b Hb. apply elem_of_cons in Hb as [->|Hb];
      [|apply list_elem_of_singleton in Hb as ->]; vm_compute; eauto.
  - reflexivity.
  - vm_compute. reflexivity.
  - intros i a Hi Ha. assert (i = 0%nat) as -> by lia.
    injection Ha as <-. vm_compute. eauto.
  - exists w'. split; [done|]. split; [exact Hnames|]. split; [exact Hcalls|].
    rewrite Hout; [reflexivity|]. by intros ?%list_elem_of_singleton.
Defined.

(** X11. [ReloadParticleIO::writeToFile], on bodies that are objects,
    returns. It changes neither the bodies nor the clock and prints
    nothing; the files after it are those before it together with the
    reload file of each body, and every other file keeps its content. In
    particular it writes to no file of a checkpoint: no overall file and no
    restart file, of any step, any name and any field width, changes. *)
Theorem reload_write_effects {P : Type} {particle_xml : ParticleXml P}
    {file : SourceFile} (bodies : list nat) (k : N)
    (this : ReloadParticleIO.t) (wc wc' w0 : World P) :
  ReloadParticleIO.new bodies wc = Returns this wc' →
  valid_bodies bodies w0 →
  ∃ w1, ReloadParticleIO.writeToFile this k w0 = Returns tt w1
    ∧ heap w1 = heap w0 ∧ cout w1 = cout w0
    ∧ physical_time_ w1 = physical_time_ w0
    ∧ dom (files w1)
      = dom (files w0) ∪ list_to_set (reload_file this wc <$> bodies)
    ∧ (∀ path, path ∉ reload_file this wc <$> bodies →
               files w1 !! path = files w0 !! path)
    ∧ ∀ (width : FieldWidth) (checkpoint : RestartIO.t) (k' : N)
        (name : string),
        files w1 !! overall_path checkpoint k'
        = files w0 !! overall_path checkpoint k'
        ∧ files w1 !! restart_path k' name = files w0 !! restart_path k' name.
Proof.
  intros Hnew Hvalid.
  apply reload_new_returns in Hnew
    as (-> & _ & b0 & o0 & rest & _ & _ & ->).
  set (this := reload_io wc o0 bodies) in *.
  destruct (reload_pairs_bodies wc o0 bodies) as (Hsnd & Hfst & Hlen).
  fold this in Hsnd, Hfst, Hlen.
  assert ((reload_pairs this).*1 = reload_file this wc <$> bodies) as Hpaths.
  { unfold this. by rewrite reload_pairs_io, <- list_fmap_compose. }
  exists (foldl reload_write_step w0 (reload_pairs this)). split.
  { rewrite reload_writeToFile_loop by done.
    apply reload_write_returns. by rewrite Hsnd. }
  destruct (reload_write_fold_frame (reload_pairs this) w0)
    as (Hh & Hc & Ht & Hframe).
  destruct (reload_write_fold (reload_pairs this) w0) as (_ & _ & Hdom).
  { by rewrite Hsnd. }
  rewrite Hpaths in Hframe, Hdom.
  repeat (split; [done|]).
  assert (∀ path, (∀ prefix, path ≠ prefix +:+ "_rld.xml") →
                  path ∉ reload_file this wc <$> bodies) as Hother.
  { intros path Hpath Hin.
    apply list_elem_of_fmap in Hin as (c & -> & _).
    apply (Hpath (reload_folder this +:+ "/" +:+ name_in wc c)).
    unfold reload_file. by rewrite !StrFacts.app_assoc. }
  intros width checkpoint k' name. split; apply Hframe, Hother.
  - intros prefix. apply overall_not_reload.
  - intros prefix. apply restart_not_reload.
Qed.

Lemma reload_write_effects_witness :
  let io := reload_io Scenario.two_bodies (Scenario.body "A" "<a/>")
              [1%nat; 2%nat] in
  ∃ w1, ReloadParticleIO.writeToFile (particle_xml := Scenario.xml_particles)
          io 5 Scenario.half_written
        = Returns tt w1
    ∧ heap w1 = heap Scenario.half_written
    ∧ files w1 !! "./restart/A_rst_000005.xml" = Some "<saved/>".
Proof.
  intros io.
  destruct (reload_write_effects (particle_xml := Scenario.xml_particles)
              (file := Scenario.source) [1%nat; 2%nat] 5 io
              Scenario.two_bodies Scenario.two_bodies Scenario.half_written)
    as (w1 & Hwrite & Hheap & _ & _ & _ & _ & Hcheckpoint).
  - vm_compute. reflexivity.
  - intros b Hb. apply elem_of_cons in Hb as [->|Hb];
      [|apply list_elem_of_singleton in Hb as ->]; vm_compute; eauto.
  - exists w1. split; [done|]. split; [done|].
    destruct (Hcheckpoint Scenario.width6
                (restart_io Scenario.two_bodies (Scenario.body "A" "<a/>")
                   [1%nat; 2%nat]) 5%N "./restart/A_rst_") as [_ Hfile].
    exact Hfile.
Defined.


(** ** The token of a physical time, by microseconds *)

Section TimeTokens.
Context {P : Type} {width : FieldWidth}.

Lemma pretty_Z_to_N (z : Z) : 0 ≤ z → pretty z = pretty (Z.to_N z).
Proof. destruct z; [done|done|lia]. Qed.

(** The token of a time that is not negative: the count of whole
    microseconds where an [int] holds it, and nothing defined above. *)
Lemma time_token_nonneg (this : BaseIO.t) (argument : Q) (w : World P) :
  (0 <= physical_time_ w)%Q →
  0 ≤ Qfloor (physical_time_ w * (1000000 # 1))
  ∧ BaseIO.convertPhysicalTimeToString this argument w
    = if bool_decide (Qfloor (physical_time_ w * (1000000 # 1)) < 2 ^ 31)
      then Returns
             (padValueWithZeros
                (Z.to_N (Qfloor (physical_time_ w * (1000000 # 1))))) w
      else Undefined.
Proof.
  intros Hpos.
  unfold BaseIO.convertPhysicalTimeToString, BaseIO.int_of_real,
    gets, mbind, Proc_bind, mret, Proc_ret, undefined.
  destruct (physical_time_ w) as [n d]. cbn in *.
  unfold Qle in Hpos. cbn in Hpos.
  assert (0 ≤ n * 1000000) as Hn by lia.
  rewrite Z.quot_div_nonneg by lia.
  assert (0 ≤ (n * 1000000) `div` Z.pos (d * 1)) by (apply Z.div_pos; lia).
  split; [done|].
  case_bool_decide as Hfit; case_bool_decide as Hfit'; try lia; [|done].
  unfold padValueWithZeros. by rewrite pretty_Z_to_N.
Qed.

Lemma time_floor_bound (t : Q) :
  Qfloor (t * (1000000 # 1)) < 2 ^ 31 ↔ (t < 2147483648 # 1000000)%Q.
Proof.
  destruct t as [n d]. unfold Qlt. cbn.
  split.
  - intros Hfit. apply Z.nle_gt. intros Hge.
    assert (2147483648 ≤ (n * 1000000) `div` Z.pos (d * 1)); [|lia].
    apply Z.div_le_lower_bound; lia.
  - intros Hlt. apply Z.div_lt_upper_bound; lia.
Qed.

End TimeTokens.

(** X13. Once the physical time has reached 2147.483648, the count of
    microseconds is more than an [int] holds: the conversion in
    [convertPhysicalTimeToString] has no defined result, and so neither has
    [BodyStatesRecording::writeToFile()], whatever the recorder. *)
Theorem time_token_overflow {P : Type} {width : FieldWidth}
    (writeWithFileName : BodyStatesRecording.t → string → Proc P unit)
    (this : BodyStatesRecording.t) (argument : Q) (w : World P) :
  (2147483648 # 1000000 <= physical_time_ w)%Q →
  BaseIO.convertPhysicalTimeToString (BodyStatesRecording.base this)
    argument w
  = Undefined
  ∧ BodyStatesRecording.writeToFile writeWithFileName this w = Undefined.
Proof.
  intros Hlate.
  assert (∀ argument',
    BaseIO.convertPhysicalTimeToString (BodyStatesRecording.base this)
      argument' w = Undefined) as Hconv.
  { intros argument'.
    destruct (time_token_nonneg (BodyStatesRecording.base this) argument' w)
      as [_ ->].
    { eapply Qle_trans; [|exact Hlate]. done. }
    rewrite bool_decide_eq_false_2; [done|].
    rewrite time_floor_bound. by apply Qle_not_lt. }
  split; [apply Hconv|].
  unfold BodyStatesRecording.writeToFile.
  rewrite (bind_returns (gets physical_time_) _ w _ w eq_refl).
  by rewrite (bind_undefined _ _ _ (Hconv (physical_time_ w))).
Qed.

Lemma time_token_overflow_witness :
  BaseIO.convertPhysicalTimeToString (width := Scenario.width6)
    (BaseIO.new Scenario.system) 0 (Scenario.world 2148 [])
  = Undefined
  ∧ BodyStatesRecording.writeToFile (width := Scenario.width6)
      (λ _ _, mret tt)
      {| BodyStatesRecording.base := BaseIO.new Scenario.system;
         BodyStatesRecording.bodies_ := [];
         BodyStatesRecording.state_recording_ := true |}
      (Scenario.world 2148 [])
    = Undefined.
Proof.
  apply (time_token_overflow (width := Scenario.width6) (λ _ _, mret tt)
           {| BodyStatesRecording.base := BaseIO.new Scenario.system;
              BodyStatesRecording.bodies_ := [];
              BodyStatesRecording.state_recording_ := true |}
           0 (Scenario.world 2148 [])).
  vm_compute. discriminate.
Defined.




